(** * Legal-AI-Contract-Generator: the risk-scoring and request-throttling core

    A shallow embedding of [risk_analyzer.py] (the rule engine and the
    analysis combiner), of the call sites of the rate limiter in
    [contract_generator.py] and [risk_analyzer.py], and of the rate limiter
    itself, followed by the properties stated about them.

    Conventions of the embedding:
    - a Python [float] is an IEEE-754 binary64 value, here Rocq's primitive
      [float], whose operations round to nearest, ties to even, as CPython's do;
    - a Python [str] is a [string]; contract texts are taken to be ASCII, on
      which [str.lower], [str.split] and [re] act as modelled below;
    - a Python [dict] with a fixed set of keys is a record, the rule catalog
      (a dict literal, iterated in insertion order) is an association list,
      and the grouping by severity, which is looked up by key, is a [gmap];
    - [None] is [None], an exception is the [Raise] branch of [Result]. *)

From Stdlib Require Import ZArith List String Ascii Bool Lia.
From Stdlib Require Import Floats.
From stdpp Require Import base option list gmap strings.

Import ListNotations.
#[local] Set Warnings "-inexact-float".
Local Open Scope string_scope.
Local Open Scope Z_scope.

(** * The embedding *)

(** ** Python floats *)

Module PyFloat.

Definition prec : Z := 53.
Definition emax : Z := 1024.

(** [min(a, b)] of two floats: Python keeps the first argument unless the
    second is strictly smaller. *)
Definition py_min (a b : float) : float :=
  if (b <? a)%float then b else a.

(** [n / 2^k] rounded to the nearest integer, ties to the even one. *)
Definition round_half_even (n : Z) (k : Z) : Z :=
  let q := Z.shiftr n k in
  let r := n - Z.shiftl q k in
  match Z.compare (2 * r) (Z.shiftl 1 k) with
  | Lt => q
  | Gt => q + 1
  | Eq => if Z.even q then q else q + 1
  end.

(** The double nearest to [d / 100], for a positive integer [d]. *)
Definition hundredths (s : bool) (d : positive) : float :=
  SF2Prim (SFdiv prec emax (S754_finite s d 0) (S754_finite false 100 0)).

(** [round(x, 2)]: CPython prints the exact value of [x] with two decimals,
    correctly rounded (ties to even), and reads the decimal string back as
    the nearest double.  Infinities and NaN round to themselves, and so does
    a float with an integral value. *)
Definition py_round2 (x : float) : float :=
  match Prim2SF x with
  | S754_finite s m e =>
      if 0 <=? e then x
      else
        match round_half_even (Zpos m * 100) (- e) with
        | Zpos d => hundredths s d
        | _ => if s then (-0)%float else 0%float
        end
  | _ => x
  end.

(** The running total of a [for] loop: [total += w], left to right. *)
Definition sum_naive (start : float) (ws : list float) : float :=
  fold_left PrimFloat.add ws start.

(** Neumaier's compensated summation, the float loop of the builtin [sum]
    since CPython 3.12: [f] is the running sum and [c] the compensation. *)
Fixpoint neumaier (f c : float) (ws : list float) : float :=
  match ws with
  | [] =>
      if negb (c =? 0)%float && PrimFloat.is_finite c then (f + c)%float else f
  | x :: ws' =>
      let t := (f + x)%float in
      let c' :=
        if (PrimFloat.abs x <=? PrimFloat.abs f)%float
        then (c + ((f - t) + x))%float
        else (c + ((x - t) + f))%float in
      neumaier t c' ws'
  end.

(** Which float loop the interpreter's builtin [sum] runs. *)
Inductive sum_impl := SumPlain | SumCompensated.

(** [sum(ws)] over floats, starting from the integer [0]: the first item is
    added to [0] by ordinary addition, the rest by the float loop. *)
Definition py_sum (impl : sum_impl) (ws : list float) : float :=
  match ws with
  | [] => 0%float
  | w :: ws' =>
      match impl with
      | SumPlain => sum_naive (0 + w)%float ws'
      | SumCompensated => neumaier (0 + w)%float 0%float ws'
      end
  end.

End PyFloat.

Import PyFloat.

(** ** Python strings (ASCII) *)

Module PyStr.

Definition code (c : ascii) : N := N_of_ascii c.

Definition between (lo hi : N) (c : ascii) : bool :=
  (N.leb lo (code c) && N.leb (code c) hi)%bool.

Definition is_upper (c : ascii) : bool := between 65 90 c.
Definition is_lower (c : ascii) : bool := between 97 122 c.
Definition is_alpha (c : ascii) : bool := (is_upper c || is_lower c)%bool.
Definition is_digit (c : ascii) : bool := between 48 57 c.

(** [str.isspace] on ASCII: tab, line feed, vertical tab, form feed, carriage
    return, the four separators 0x1c..0x1f and the space. *)
Definition is_space (c : ascii) : bool :=
  (between 9 13 c || between 28 32 c)%bool.

Definition lower_char (c : ascii) : ascii :=
  if is_upper c then ascii_of_N (code c + 32) else c.

Definition upper_char (c : ascii) : ascii :=
  if is_lower c then ascii_of_N (code c - 32) else c.

(** [s.lower()] *)
Fixpoint lower (s : string) : string :=
  match s with
  | EmptyString => EmptyString
  | String c s' => String (lower_char c) (lower s')
  end.

(** [s.upper()] of an ASCII string.  Beyond ASCII Python's [str.upper] maps
    further letters onto ASCII ones (U+017F onto S, U+0131 onto I), which this
    function does not: what is stated with it is stated of ASCII strings. *)
Fixpoint upper (s : string) : string :=
  match s with
  | EmptyString => EmptyString
  | String c s' => String (upper_char c) (upper s')
  end.

Definition is_empty (s : string) : bool :=
  match s with EmptyString => true | _ => false end.

(** [s.split()]: the maximal runs of non-whitespace characters; [cur] is
    the token being read. *)
Fixpoint split_from (s : string) (cur : string) : list string :=
  match s with
  | EmptyString => if is_empty cur then [] else [cur]
  | String c s' =>
      if is_space c
      then (if is_empty cur then split_from s' "" else cur :: split_from s' "")
      else split_from s' (cur ++ String c "")
  end.

Definition split (s : string) : list string := split_from s "".

Fixpoint lstrip (s : string) : string :=
  match s with
  | String c s' => if is_space c then lstrip s' else s
  | EmptyString => EmptyString
  end.

Fixpoint rstrip (s : string) : string :=
  match s with
  | EmptyString => EmptyString
  | String c s' =>
      let t := rstrip s' in
      if (is_empty t && is_space c)%bool then EmptyString else String c t
  end.

(** [s.strip()] *)
Definition strip (s : string) : string := rstrip (lstrip s).

(** [s.replace(old, new)] for one-character [old] and [new]. *)
Fixpoint replace (old new : ascii) (s : string) : string :=
  match s with
  | EmptyString => EmptyString
  | String c s' =>
      String (if Ascii.eqb c old then new else c) (replace old new s')
  end.

(** [s.title()]: a letter that follows a letter is lowered, any other
    letter is raised; [prev] tells whether the previous character was a
    letter. *)
Fixpoint title_from (prev : bool) (s : string) : string :=
  match s with
  | EmptyString => EmptyString
  | String c s' =>
      String (if prev then lower_char c else upper_char c)
             (title_from (is_alpha c) s')
  end.

Definition title (s : string) : string := title_from false s.

(** [len(s)] *)
Definition len (s : string) : Z := Z.of_nat (String.length s).

End PyStr.

(** ** The fragment of Python's [re] the catalog uses *)

Module Re.

(** Sets of characters: a literal, [.] (anything but a line feed), [\d],
    a bracketed union, and any character at all. *)
Inductive cset :=
| CChar (c : ascii)
| CDot
| CDigit
| CUnion (a b : cset)
| CAll.

Fixpoint cset_mem (cs : cset) (c : ascii) : bool :=
  match cs with
  | CChar d => Ascii.eqb c d
  | CDot => negb (Ascii.eqb c "010")
  | CDigit => PyStr.is_digit c
  | CUnion a b => (cset_mem a c || cset_mem b c)%bool
  | CAll => true
  end.

Inductive regex :=
| Void
| Eps
| Sym (cs : cset)
| Cat (r1 r2 : regex)
| Alt (r1 r2 : regex)
| Star (r : regex).

(** *** Reading a pattern *)

(** Where the reader is: outside brackets with the last item read, which a
    quantifier may still follow, or inside [[...]] with the members so far. *)
Inductive pstate :=
| Top (cur : option regex)
| InClass (items : option cset).

Definition flush (acc : regex) (cur : option regex) : regex :=
  match cur with
  | Some a => Cat acc a
  | None => acc
  end.

Definition add_item (items : option cset) (e : cset) : cset :=
  match items with
  | Some cs => CUnion cs e
  | None => e
  end.

(** [\d] is the digit class, a backslash before punctuation quotes it; the
    other letter and digit escapes are outside the fragment. *)
Definition escape (c : ascii) : option cset :=
  if Ascii.eqb c "d" then Some CDigit
  else if (PyStr.is_alpha c || PyStr.is_digit c)%bool then None
  else Some (CChar c).

Definition is_meta (c : ascii) : bool :=
  existsb (Ascii.eqb c) (list_ascii_of_string "^$|(){}").

Definition quantify (q : ascii) (a : regex) : option regex :=
  if Ascii.eqb q "*" then Some (Star a)
  else if Ascii.eqb q "+" then Some (Cat a (Star a))
  else if Ascii.eqb q "?" then Some (Alt a Eps)
  else None.

Definition is_quantifier (c : ascii) : bool :=
  existsb (Ascii.eqb c) (list_ascii_of_string "*+?").

(** [parse p acc st] reads the pattern [p] from left to right; [acc] is the
    concatenation of the items completed so far.  [None] means the pattern
    is malformed or uses syntax outside the fragment (groups, alternation,
    anchors, ranges, negated classes, counted and lazy repetition). *)
Fixpoint parse (p : list ascii) (acc : regex) (st : pstate) : option regex :=
  match p with
  | [] =>
      match st with
      | Top cur => Some (flush acc cur)
      | InClass _ => None
      end
  | c :: rest =>
      if Ascii.eqb c "\" then
        match rest with
        | [] => None
        | e :: rest' =>
            match escape e, st with
            | None, _ => None
            | Some cs, Top cur => parse rest' (flush acc cur) (Top (Some (Sym cs)))
            | Some cs, InClass items => parse rest' acc (InClass (Some (add_item items cs)))
            end
        end
      else
        match st with
        | Top cur =>
            if is_quantifier c then
              match cur with
              | Some a =>
                  match quantify c a with
                  | Some qa => parse rest (Cat acc qa) (Top None)
                  | None => None
                  end
              | None => None
              end
            else if Ascii.eqb c "." then parse rest (flush acc cur) (Top (Some (Sym CDot)))
            else if Ascii.eqb c "[" then parse rest (flush acc cur) (InClass None)
            else if (is_meta c || Ascii.eqb c "]")%bool then None
            else parse rest (flush acc cur) (Top (Some (Sym (CChar c))))
        | InClass items =>
            if Ascii.eqb c "]" then
              match items with
              | Some cs => parse rest acc (Top (Some (Sym cs)))
              | None => None
              end
            else if (Ascii.eqb c "^" || Ascii.eqb c "-" || Ascii.eqb c "[")%bool then None
            else parse rest acc (InClass (Some (add_item items (CChar c))))
        end
  end.

(** [re.compile(pattern)] *)
Definition compile (pattern : string) : option regex :=
  parse (list_ascii_of_string pattern) Eps (Top None).

(** *** Matching, by derivatives *)

Fixpoint nullable (r : regex) : bool :=
  match r with
  | Void => false
  | Eps => true
  | Sym _ => false
  | Cat r1 r2 => (nullable r1 && nullable r2)%bool
  | Alt r1 r2 => (nullable r1 || nullable r2)%bool
  | Star _ => true
  end.

Definition cat (r1 r2 : regex) : regex :=
  match r1, r2 with
  | Void, _ => Void
  | _, Void => Void
  | Eps, _ => r2
  | _, Eps => r1
  | _, _ => Cat r1 r2
  end.

Definition alt (r1 r2 : regex) : regex :=
  match r1, r2 with
  | Void, _ => r2
  | _, Void => r1
  | _, _ => Alt r1 r2
  end.

Fixpoint deriv (c : ascii) (r : regex) : regex :=
  match r with
  | Void => Void
  | Eps => Void
  | Sym cs => if cset_mem cs c then Eps else Void
  | Cat r1 r2 =>
      if nullable r1
      then alt (cat (deriv c r1) r2) (deriv c r2)
      else cat (deriv c r1) r2
  | Alt r1 r2 => alt (deriv c r1) (deriv c r2)
  | Star r1 => cat (deriv c r1) (Star r1)
  end.

(** Does [r] match the whole of [s]? *)
Fixpoint fullmatch (r : regex) (s : string) : bool :=
  match s with
  | EmptyString => nullable r
  | String c s' => fullmatch (deriv c r) s'
  end.

Definition anywhere (r : regex) : regex :=
  Cat (Star (Sym CAll)) (Cat r (Star (Sym CAll))).

(** [bool(re.search(pattern, text))]: does the pattern match some substring
    of [text]?  [None] when the pattern does not compile. *)
Definition search (pattern : string) (text : string) : option bool :=
  match compile pattern with
  | Some r => Some (fullmatch (anywhere r) text)
  | None => None
  end.

End Re.

(** ** Exceptions *)

(** The outcome of a call that may raise: a value, or the message [str(e)]
    of the exception [e], an instance of [Exception], the class the handlers
    of the sources catch ([except Exception as e]).  Exits and interrupts
    ([SystemExit], [KeyboardInterrupt]), which do not derive from [Exception]
    and pass through those handlers, are outside the model. *)
Inductive Result (A : Type) : Type :=
| Ok (a : A)
| Raise (msg : string).

Arguments Ok {A} a.
Arguments Raise {A} msg.

#[global] Instance Result_ret : MRet Result := fun A a => Ok a.
#[global] Instance Result_bind : MBind Result := fun A B f m =>
  match m with
  | Ok a => f a
  | Raise msg => Raise msg
  end.

Definition is_ok {A} (m : Result A) : bool :=
  match m with Ok _ => true | Raise _ => false end.

(** ** The clock *)

(** A reading of [datetime.now()]. *)
Record datetime := {
  year : Z; month : Z; day : Z;
  hour : Z; minute : Z; second : Z; microsecond : Z
}.

Definition digit_char (d : Z) : ascii := ascii_of_N (48 + Z.to_N (d mod 10)).

(** [n] in decimal, padded with zeros to at least [width] digits. *)
Fixpoint zero_pad (width : nat) (n : Z) : string :=
  match width with
  | O => ""
  | S w => zero_pad w (n / 10) ++ String (digit_char n) ""
  end.

(** [d.isoformat()]: [YYYY-MM-DDTHH:MM:SS], followed by [.ffffff] when the
    microsecond is not zero. *)
Definition isoformat (d : datetime) : string :=
  zero_pad 4 (year d) ++ "-" ++ zero_pad 2 (month d) ++ "-" ++ zero_pad 2 (day d)
  ++ "T" ++ zero_pad 2 (hour d) ++ ":" ++ zero_pad 2 (minute d) ++ ":"
  ++ zero_pad 2 (second d)
  ++ (if microsecond d =? 0 then "" else "." ++ zero_pad 6 (microsecond d)).

(** ** The rule catalog *)

Module Rule.
Record t := {
  patterns : list string;
  severity : string;
  weight : float;
  description : string;
  recommendation : string
}.
End Rule.

(** [self.risk_rules]: rule key to rule, in the order of the dict literal. *)
Abbreviation Catalog := (list (string * Rule.t)).

Definition _load_risk_rules : Catalog := [
  ("missing_liability_cap",
   {| Rule.patterns := ["liability.*limit"; "limitation.*liability"; "cap.*damages"];
      Rule.severity := "HIGH";
      Rule.weight := 0.9;
      Rule.description := "Missing or inadequate liability limitations";
      Rule.recommendation := "Add clear liability limitation clauses to cap financial exposure" |});
  ("missing_termination",
   {| Rule.patterns := ["terminat"; "end.*agreement"; "expir"; "cancel"];
      Rule.severity := "HIGH";
      Rule.weight := 0.8;
      Rule.description := "Missing or unclear termination provisions";
      Rule.recommendation := "Include clear termination procedures and notice requirements" |});
  ("missing_governing_law",
   {| Rule.patterns := ["governing.*law"; "governed.*by"; "jurisdiction"; "applicable.*law"];
      Rule.severity := "MEDIUM";
      Rule.weight := 0.7;
      Rule.description := "Missing governing law and jurisdiction clauses";
      Rule.recommendation := "Specify governing law and jurisdiction for dispute resolution" |});
  ("missing_confidentiality",
   {| Rule.patterns := ["confidential"; "proprietary"; "non.?disclos"; "trade.*secret"];
      Rule.severity := "MEDIUM";
      Rule.weight := 0.6;
      Rule.description := "Missing confidentiality and non-disclosure provisions";
      Rule.recommendation := "Add confidentiality clauses to protect sensitive information" |});
  ("vague_payment_terms",
   {| Rule.patterns := ["\$[\d,]+"; "payment.*schedule"; "compensation"; "fee"];
      Rule.severity := "MEDIUM";
      Rule.weight := 0.5;
      Rule.description := "Vague or missing payment terms";
      Rule.recommendation := "Specify clear payment amounts, schedules, and procedures" |});
  ("missing_late_fees",
   {| Rule.patterns := ["late.*fee"; "interest.*overdue"; "penalty.*late"];
      Rule.severity := "LOW";
      Rule.weight := 0.3;
      Rule.description := "Missing late payment penalties";
      Rule.recommendation := "Consider adding late payment fees and interest charges" |});
  ("missing_ip_clauses",
   {| Rule.patterns := ["intellectual.*property"; "copyright"; "trademark"; "patent"; "work.*product"];
      Rule.severity := "MEDIUM";
      Rule.weight := 0.6;
      Rule.description := "Missing intellectual property provisions";
      Rule.recommendation := "Clarify ownership and rights to intellectual property created" |});
  ("missing_force_majeure",
   {| Rule.patterns := ["force.*majeure"; "act.*god"; "unforeseeable"; "beyond.*control"];
      Rule.severity := "LOW";
      Rule.weight := 0.4;
      Rule.description := "Missing force majeure provisions";
      Rule.recommendation := "Consider adding force majeure clauses for unforeseen circumstances" |});
  ("missing_amendment_clause",
   {| Rule.patterns := ["amendment"; "modif"; "chang.*agreement"; "written.*consent"];
      Rule.severity := "LOW";
      Rule.weight := 0.3;
      Rule.description := "Missing amendment and modification procedures";
      Rule.recommendation := "Specify how the agreement can be amended or modified" |});
  ("missing_severability",
   {| Rule.patterns := ["severab"; "invalid.*provision"; "unenforceable"];
      Rule.severity := "LOW";
      Rule.weight := 0.2;
      Rule.description := "Missing severability clause";
      Rule.recommendation := "Add severability clause to preserve agreement if one provision is invalid" |})
]%float.

(** ** Findings and the rule report *)

Module Risk.
Record t := {
  risk_id : string;
  severity : string;
  weight : float;
  description : string;
  recommendation : string;
  category : string
}.
End Risk.

Module RuleReport.
Record t := {
  success : bool;
  analysis_type : string;
  overall_risk_score : float;
  risk_level : string;
  total_risks : Z;
  risks_by_severity : gmap string (list Risk.t);
  risks_identified : list Risk.t;
  contract_length : Z;
  analysis_timestamp : string
}.
End RuleReport.

(** [_categorize_risk]: the first category, in the order of the dict
    literal, whose list holds the key; its name with [_] turned into a space
    and title-cased; ["General"] when no list holds it. *)
Definition categories : list (string * list string) := [
  ("liability", ["missing_liability_cap"; "vague_payment_terms"]);
  ("termination", ["missing_termination"]);
  ("legal", ["missing_governing_law"; "missing_amendment_clause"; "missing_severability"]);
  ("confidentiality", ["missing_confidentiality"]);
  ("financial", ["vague_payment_terms"; "missing_late_fees"]);
  ("intellectual_property", ["missing_ip_clauses"]);
  ("operational", ["missing_force_majeure"])
].

Fixpoint categorize_in (cats : list (string * list string)) (risk_id : string) : string :=
  match cats with
  | [] => "General"
  | (category, risks) :: cats' =>
      if existsb (String.eqb risk_id) risks
      then PyStr.title (PyStr.replace "_" " " category)
      else categorize_in cats' risk_id
  end.

Definition _categorize_risk (risk_id : string) : string :=
  categorize_in categories risk_id.

(** [_group_risks_by_severity]: a finding is appended to the bucket of its
    severity when the dict has that key, and dropped otherwise. *)
Definition group_step (grouped : gmap string (list Risk.t)) (risk : Risk.t)
  : gmap string (list Risk.t) :=
  match grouped !! Risk.severity risk with
  | Some bucket => <[Risk.severity risk := (bucket ++ [risk])%list]> grouped
  | None => grouped
  end.

Definition _group_risks_by_severity (risks : list Risk.t) : gmap string (list Risk.t) :=
  fold_left group_step risks
    (<["HIGH" := []]> (<["MEDIUM" := []]> (<["LOW" := []]> ∅))).

(** The bucket of a severity in a grouping, as [grouped[severity]] reads it. *)
Definition bucket (grouped : gmap string (list Risk.t)) (sev : string) : list Risk.t :=
  default [] (grouped !! sev).

(** ** Rule-based analysis *)

(** The inner loop of [analyze_contract_rules]: the patterns of a rule that
    [re.search] finds in the lowered text, in order. *)
Fixpoint patterns_found (ps : list string) (contract_lower : string) : Result (list string) :=
  match ps with
  | [] => Ok []
  | pattern :: ps' =>
      match Re.search pattern contract_lower with
      | None => Raise "re.error"
      | Some hit =>
          found ← patterns_found ps' contract_lower;
          mret (if hit then pattern :: found else found)
      end
  end.

Definition make_risk (risk_id : string) (rule : Rule.t) : Risk.t :=
  {| Risk.risk_id := risk_id;
     Risk.severity := Rule.severity rule;
     Risk.weight := Rule.weight rule;
     Risk.description := Rule.description rule;
     Risk.recommendation := Rule.recommendation rule;
     Risk.category := _categorize_risk risk_id |}.

(** The outer loop: [st] is [(risks_identified, total_risk_score)]. *)
Fixpoint scan_rules (items : Catalog) (contract_lower : string)
    (st : list Risk.t * float) : Result (list Risk.t * float) :=
  match items with
  | [] => Ok st
  | (risk_id, rule) :: items' =>
      found ← patterns_found (Rule.patterns rule) contract_lower;
      match found with
      | [] =>
          scan_rules items' contract_lower
            ((st.1 ++ [make_risk risk_id rule])%list, (st.2 + Rule.weight rule)%float)
      | _ :: _ => scan_rules items' contract_lower st
      end
  end.

(** The thresholds on the normalized score. *)
Definition level_of (normalized_risk_score : float) : string :=
  if (0.7 <=? normalized_risk_score)%float then "HIGH"
  else if (0.4 <=? normalized_risk_score)%float then "MEDIUM"
  else "LOW".

Section RuleEngine.

(** The float loop of the interpreter's [sum]. *)
Variable py : sum_impl.

Definition max_possible_risk (risk_rules : Catalog) : float :=
  py_sum py (map (fun item => Rule.weight item.2) risk_rules).

(** [min(total / max, 1.0) if max > 0 else 0] *)
Definition normalize (total_risk_score max_possible : float) : float :=
  if (0 <? max_possible)%float
  then py_min (total_risk_score / max_possible)%float 1%float
  else 0%float.

(** [analyze_contract_rules]; [now] is the reading of [datetime.now()].
    The integer [0] that starts [total_risk_score], and that the score is
    when the catalog weighs nothing, is the float [0]. *)
Definition analyze_contract_rules (risk_rules : Catalog) (now : datetime)
    (contract_text : string) : Result RuleReport.t :=
  let contract_lower := PyStr.lower contract_text in
  st ← scan_rules risk_rules contract_lower ([], 0%float);
  let risks_identified := st.1 in
  let total_risk_score := st.2 in
  let normalized_risk_score :=
    normalize total_risk_score (max_possible_risk risk_rules) in
  let risk_level := level_of normalized_risk_score in
  mret {| RuleReport.success := true;
          RuleReport.analysis_type := "Rule-Based";
          RuleReport.overall_risk_score := py_round2 normalized_risk_score;
          RuleReport.risk_level := risk_level;
          RuleReport.total_risks := Z.of_nat (length risks_identified);
          RuleReport.risks_by_severity := _group_risks_by_severity risks_identified;
          RuleReport.risks_identified := risks_identified;
          RuleReport.contract_length := Z.of_nat (length (PyStr.split contract_text));
          RuleReport.analysis_timestamp := isoformat now |}.

End RuleEngine.

(** ** The analysis combiner *)

Module OverallRiskAssessment.
Record t := {
  risk_level : string;
  risk_score : float;
  confidence : string;
  total_issues : Z
}.
End OverallRiskAssessment.

Module AiAnalysis.
Record t := {
  detailed_analysis : option string;
  model_used : string;
  analysis_depth : string
}.
End AiAnalysis.

Module RuleBasedAnalysis.
Record t := {
  risks_identified : list Risk.t;
  risks_by_severity : gmap string (list Risk.t);
  missing_clauses : Z;
  critical_gaps : Z
}.
End RuleBasedAnalysis.

Module ContractStatistics.
Record t := {
  word_count : Z;
  character_count : Z;
  sentence_count : Z;
  section_count : Z;
  estimated_pages : Z;
  reading_time_minutes : Z;
  complexity_score : Z
}.
End ContractStatistics.

(** The two upper tiers are lists; the lower tier is what
    [_get_low_priority_recommendations] returns, [None] standing for Python's
    [None]. *)
Module Recommendations.
Record t := {
  immediate_actions : list string;
  medium_term_improvements : list string;
  long_term_considerations : option (list string)
}.
End Recommendations.

Module AnalysisMetadata.
Record t := {
  analyzed_at : string;
  analysis_time : string;
  cost : string;
  model : string
}.
End AnalysisMetadata.

Module CombinedReport.
Record t := {
  success : bool;
  analysis_type : string;
  overall_risk_assessment : OverallRiskAssessment.t;
  ai_analysis : AiAnalysis.t;
  rule_based_analysis : RuleBasedAnalysis.t;
  contract_statistics : ContractStatistics.t;
  recommendations : Recommendations.t;
  analysis_metadata : AnalysisMetadata.t
}.
End CombinedReport.

(** [len(re.findall(r'[.!?]+', text))]: the number of maximal runs of
    sentence punctuation; [inside] tells whether the previous character was
    part of a run. *)
Definition is_terminator (c : ascii) : bool :=
  existsb (Ascii.eqb c) (list_ascii_of_string ".!?").

Fixpoint count_runs (inside : bool) (s : string) : Z :=
  match s with
  | EmptyString => 0
  | String c s' =>
      if is_terminator c
      then (if inside then 0 else 1) + count_runs true s'
      else count_runs false s'
  end.

(** [len(re.findall(r'^\d+\.', text, re.MULTILINE))]: the number of lines
    that begin with one or more digits and a full stop.  The scan is at the
    start of a line, inside the leading digits of one, or past them. *)
Inductive line_state := LineStart | LeadingDigits | Elsewhere.

Fixpoint count_sections (st : line_state) (s : string) : Z :=
  match s with
  | EmptyString => 0
  | String c s' =>
      if Ascii.eqb c "010" then count_sections LineStart s'
      else
        match st with
        | LineStart =>
            count_sections (if PyStr.is_digit c then LeadingDigits else Elsewhere) s'
        | LeadingDigits =>
            if PyStr.is_digit c then count_sections LeadingDigits s'
            else if Ascii.eqb c "." then 1 + count_sections Elsewhere s'
            else count_sections Elsewhere s'
        | Elsewhere => count_sections Elsewhere s'
        end
  end.

Definition _extract_contract_statistics (contract_text : string) : ContractStatistics.t :=
  let words := PyStr.split contract_text in
  let sentences := count_runs false contract_text in
  let sections := count_sections LineStart contract_text in
  let n := Z.of_nat (length words) in
  {| ContractStatistics.word_count := n;
     ContractStatistics.character_count := PyStr.len contract_text;
     ContractStatistics.sentence_count := sentences;
     ContractStatistics.section_count := sections;
     ContractStatistics.estimated_pages := Z.max 1 (n / 250);
     ContractStatistics.reading_time_minutes := Z.max 1 (n / 200);
     ContractStatistics.complexity_score := Z.min 10 (Z.max 1 (n / 200)) |}.

Definition _get_high_priority_recommendations (risks : list Risk.t) : list string :=
  let high_risks := filter (fun r => Risk.severity r = "HIGH") risks in
  map Risk.recommendation high_risks.

Definition _get_medium_priority_recommendations (risks : list Risk.t) : list string :=
  let medium_risks := filter (fun r => Risk.severity r = "MEDIUM") risks in
  map Risk.recommendation medium_risks.

(** The body of [_get_low_priority_recommendations] is its docstring alone,
    so a call returns [None] whatever the findings. *)
Definition _get_low_priority_recommendations (risks : list Risk.t) : option (list string) :=
  None.

(** [_combine_analyses]; [now] is the reading of [datetime.now()], and
    [ai_analysis] is [None] when the caller has no text from the service. *)
Definition _combine_analyses (now : datetime) (ai_analysis : option string)
    (rule_analysis : RuleReport.t) (contract_text : string) : CombinedReport.t :=
  let contract_stats := _extract_contract_statistics contract_text in
  let risks := RuleReport.risks_identified rule_analysis in
  {| CombinedReport.success := true;
     CombinedReport.analysis_type := "Comprehensive (AI + Rule-Based)";
     CombinedReport.overall_risk_assessment :=
       {| OverallRiskAssessment.risk_level := RuleReport.risk_level rule_analysis;
          OverallRiskAssessment.risk_score := RuleReport.overall_risk_score rule_analysis;
          OverallRiskAssessment.confidence := "High";
          OverallRiskAssessment.total_issues := RuleReport.total_risks rule_analysis |};
     CombinedReport.ai_analysis :=
       {| AiAnalysis.detailed_analysis := ai_analysis;
          AiAnalysis.model_used := "Google Gemini 1.5 Flash";
          AiAnalysis.analysis_depth := "Comprehensive" |};
     CombinedReport.rule_based_analysis :=
       {| RuleBasedAnalysis.risks_identified := risks;
          RuleBasedAnalysis.risks_by_severity := RuleReport.risks_by_severity rule_analysis;
          RuleBasedAnalysis.missing_clauses := Z.of_nat (length risks);
          RuleBasedAnalysis.critical_gaps :=
            Z.of_nat (length (filter (fun r => Risk.severity r = "HIGH") risks)) |};
     CombinedReport.contract_statistics := contract_stats;
     CombinedReport.recommendations :=
       {| Recommendations.immediate_actions := _get_high_priority_recommendations risks;
          Recommendations.medium_term_improvements := _get_medium_priority_recommendations risks;
          Recommendations.long_term_considerations := _get_low_priority_recommendations risks |};
     CombinedReport.analysis_metadata :=
       {| AnalysisMetadata.analyzed_at := isoformat now;
          AnalysisMetadata.analysis_time := "< 30 seconds";
          AnalysisMetadata.cost := "$0.00 (Free Tier)";
          AnalysisMetadata.model := "Gemini 1.5 Flash + Rule Engine" |} |}.

(** ** The rate limiter *)

(** Modelled from the spec: the class [RateLimiter] of [utils.py], which the
    sources construct and call but do not contain.  The state is the ceiling,
    the window and the ordered timestamps of the calls accepted within the
    trailing window; time is counted in whole time units.  A timestamp has
    expired once a full window has passed since it, so that after the wait of
    step 3 the earliest one is gone, as the spec says it will be.  Step 1
    taken word for word, which keeps a timestamp that is exactly one window
    old, is [RateLimiterAsWorded] below. *)
Module RateLimiter.

Record t := {
  max_requests_per_window : Z;
  window_duration : Z;
  timestamps : list Z
}.

Definition set_timestamps (l : t) (ts : list Z) : t :=
  {| max_requests_per_window := max_requests_per_window l;
     window_duration := window_duration l;
     timestamps := ts |}.

(** Construction rejects a ceiling or a window that is not positive. *)
Definition new (max_requests window : Z) : Result t :=
  if ((0 <? max_requests) && (0 <? window))%bool
  then Ok {| max_requests_per_window := max_requests;
             window_duration := window;
             timestamps := [] |}
  else Raise "ValueError".

(** Step 1: the timestamps still within the window at [now]. *)
Definition purge (l : t) (now : Z) : list Z :=
  filter (fun ts => now - ts < window_duration l) (timestamps l).

(** Steps 1 to 3, retried at most [fuel] times: the result is the state
    with [now] recorded and the time at which the caller goes on. *)
Fixpoint acquire_loop (fuel : nat) (l : t) (now : Z) : option (t * Z) :=
  match fuel with
  | O => None
  | S fuel' =>
      let kept := purge l now in
      if Z.of_nat (length kept) <? max_requests_per_window l
      then Some (set_timestamps l (kept ++ [now])%list, now)
      else
        let oldest := hd now kept in
        let wait := Z.max 0 (window_duration l - (now - oldest)) in
        acquire_loop fuel' (set_timestamps l kept) (now + wait)
  end.

(** [acquire()], called at [now]: one try for each recorded timestamp and
    one more are enough (see [acquire_total]). *)
Definition acquire (l : t) (now : Z) : option (t * Z) :=
  acquire_loop (S (length (timestamps l))) l now.

(** The recorded timestamps within the trailing window at the instant [at]. *)
Definition in_window (l : t) (at_ : Z) : list Z :=
  filter (fun ts => ts <= at_ /\ at_ - ts < window_duration l) (timestamps l).

(** A caller that makes its calls one after the other: each call is asked
    for at its time in [calls], starts once the one before has returned, and
    returns when admitted.  The result lists the instants of admission. *)
Fixpoint serve (l : t) (clock : Z) (calls : list Z) : option (list Z * t) :=
  match calls with
  | [] => Some ([], l)
  | asked :: calls' =>
      match acquire l (Z.max clock asked) with
      | None => None
      | Some (l', admitted) =>
          match serve l' admitted calls' with
          | None => None
          | Some (rest, l'') => Some (admitted :: rest, l'')
          end
      end
  end.

End RateLimiter.

(** Modelled from the spec: the steps of [acquire()] in 4.3 taken word for
    word.  Step 1 purges the timestamps older than [now - window_duration], so
    a timestamp that is exactly one window old stays; steps 2 and 3 are those
    of [RateLimiter].  The retry of step 3 is made at most [fuel] times. *)
Module RateLimiterAsWorded.

(** Step 1: the timestamps that are not older than [now - window_duration]. *)
Definition purge (l : RateLimiter.t) (now : Z) : list Z :=
  filter (fun ts => now - RateLimiter.window_duration l <= ts) (RateLimiter.timestamps l).

Fixpoint acquire_loop (fuel : nat) (l : RateLimiter.t) (now : Z) : option (RateLimiter.t * Z) :=
  match fuel with
  | O => None
  | S fuel' =>
      let kept := purge l now in
      if Z.of_nat (length kept) <? RateLimiter.max_requests_per_window l
      then Some (RateLimiter.set_timestamps l (kept ++ [now])%list, now)
      else
        let oldest := hd now kept in
        let wait := Z.max 0 (RateLimiter.window_duration l - (now - oldest)) in
        acquire_loop fuel' (RateLimiter.set_timestamps l kept) (now + wait)
  end.

(** A caller that makes its calls one after the other, as [RateLimiter.serve]
    does, each call with [fuel] retries at most. *)
Fixpoint serve (fuel : nat) (l : RateLimiter.t) (clock : Z) (calls : list Z) :
    option (list Z * RateLimiter.t) :=
  match calls with
  | [] => Some ([], l)
  | asked :: calls' =>
      match acquire_loop fuel l (Z.max clock asked) with
      | None => None
      | Some (l', admitted) =>
          match serve fuel l' admitted calls' with
          | None => None
          | Some (rest, l'') => Some (admitted :: rest, l'')
          end
      end
  end.

End RateLimiterAsWorded.

(** ** The world around the two components *)

(** What the external text service does with a prompt: how long the call
    takes, and the text of the response or the exception it ends in. *)
Record Reply := {
  took : Z;
  outcome : Result string
}.

(** The state the components act on: the wall clock, the [RateLimiter]
    objects by reference, the calls sent to the external service (time and
    prompt, latest first) and the requests the usage tracker has counted. *)
Record World := {
  wall : Z;
  limiters : list RateLimiter.t;
  sent : list (Z * string);
  tracked : list string
}.

Definition set_wall (w : World) (t : Z) : World :=
  {| wall := t; limiters := limiters w; sent := sent w; tracked := tracked w |}.

Definition set_limiters (w : World) (ls : list RateLimiter.t) : World :=
  {| wall := wall w; limiters := ls; sent := sent w; tracked := tracked w |}.

Definition set_sent (w : World) (log : list (Z * string)) : World :=
  {| wall := wall w; limiters := limiters w; sent := log; tracked := tracked w |}.

Definition set_tracked (w : World) (log : list string) : World :=
  {| wall := wall w; limiters := limiters w; sent := sent w; tracked := log |}.

(** A computation that acts on the world and returns or raises; what it did
    to the world before raising stays done. *)
Definition M (A : Type) : Type := World -> Result A * World.

#[global] Instance M_ret : MRet M := fun A a w => (Ok a, w).
#[global] Instance M_bind : MBind M := fun A B f m w =>
  match m w with
  | (Ok a, w') => f a w'
  | (Raise msg, w') => (Raise msg, w')
  end.

Definition lift {A} (r : Result A) : M A := fun w => (r, w).

(** [try: body except Exception as e: handler(str(e))] *)
Definition try_except {A} (body : M A) (handler : string -> M A) : M A := fun w =>
  match body w with
  | (Ok a, w') => (Ok a, w')
  | (Raise msg, w') => handler msg w'
  end.

(** [RateLimiter(max_requests_per_minute=n)]: a new object, with the window
    of one minute, and the reference to it. *)
Definition RateLimiter_new (max_requests_per_minute : Z) : M nat := fun w =>
  match RateLimiter.new max_requests_per_minute 60 with
  | Ok l => (Ok (length (limiters w)), set_limiters w (limiters w ++ [l])%list)
  | Raise msg => (Raise msg, w)
  end.

(** [limiter.wait_if_needed()], the [acquire()] of the spec: the caller is
    held until the limiter admits it. *)
Definition wait_if_needed (limiter : nat) : M unit := fun w =>
  match limiters w !! limiter with
  | None => (Raise "ReferenceError", w)
  | Some l =>
      match RateLimiter.acquire l (wall w) with
      | Some (l', admitted) =>
          (Ok tt, set_wall (set_limiters w (<[limiter := l']> (limiters w))) admitted)
      | None => (Raise "RecursionError", w)
      end
  end.

(** Modelled from the spec: [usage_tracker.track_request] of [utils.py], which
    counts the request and does nothing else. *)
Definition track_request (kind : string) : M unit := fun w =>
  (Ok tt, set_tracked w (kind :: tracked w)).

(** [time.time()] *)
Definition time_time : M Z := fun w => (Ok (wall w), w).

(** [_create_analysis_prompt] *)
Definition _create_analysis_prompt (contract_text : string) : string :=
  "
        You are an expert legal contract analyst. Perform a comprehensive risk assessment of this contract:

        CONTRACT TEXT:
        "
  ++ contract_text ++
  "

        Provide a detailed legal analysis covering:

        1. OVERALL RISK ASSESSMENT
        - Risk Level: (LOW/MEDIUM/HIGH)
        - Contract Quality Score: (1-10 scale)
        - Legal Enforceability Rating: (1-10 scale)
        - Completeness Assessment: (1-10 scale)

        2. CRITICAL LEGAL ISSUES
        - Identify any provisions that could lead to legal disputes
        - Flag ambiguous or contradictory clauses
        - Highlight missing standard legal protections
        - Note any unusual or problematic terms

        3. CLAUSE-BY-CLAUSE ANALYSIS
        - Essential clauses present and their adequacy
        - Missing standard contract provisions
        - Problematic or vague language that needs clarification
        - Recommendations for improvement

        4. FINANCIAL AND LIABILITY RISKS
        - Payment terms analysis and potential issues
        - Liability exposure and limitations
        - Insurance and indemnification provisions
        - Financial protection adequacy

        5. COMPLIANCE AND LEGAL RISKS
        - Regulatory compliance issues
        - Jurisdictional concerns
        - Industry-specific requirements
        - Potential enforceability problems

        6. OPERATIONAL RISKS
        - Performance obligations clarity
        - Delivery and acceptance terms
        - Change management procedures
        - Dispute resolution mechanisms

        7. INTELLECTUAL PROPERTY ANALYSIS
        - IP ownership and rights allocation
        - Confidentiality and trade secret protection
        - License grants and restrictions
        - Third-party IP considerations

        8. TERMINATION AND EXIT PROVISIONS
        - Termination triggers and procedures
        - Notice requirements
        - Post-termination obligations
        - Asset and information return provisions

        9. RECOMMENDATIONS FOR IMPROVEMENT
        - Priority improvements (High/Medium/Low)
        - Specific language suggestions
        - Additional clauses to consider
        - Risk mitigation strategies

        10. PRECEDENT AND MARKET STANDARDS
        - Comparison to industry standards
        - Market-typical terms assessment
        - Unusual provisions analysis
        - Negotiation recommendations

        Format your analysis as a professional legal memorandum with clear sections and specific, actionable recommendations.
        ".

Module FailureReport.
Record t := {
  success : bool;
  error : string;
  timestamp : string
}.
End FailureReport.

(** What [analyze_contract_comprehensive] returns: the combined report, or
    the dict of its [except] branch. *)
Inductive AnalysisResult :=
| Analyzed (report : CombinedReport.t)
| AnalysisFailed (failure : FailureReport.t).

Module ContractRiskAnalyzer.
Record t := {
  api_key : string;
  rate_limiter : nat;
  risk_rules : Catalog
}.
End ContractRiskAnalyzer.

(** [api_key or os.getenv("GEMINI_API_KEY")], and the check that follows:
    a key that is absent or empty counts as missing. *)
Definition truthy (s : option string) : option string :=
  match s with
  | Some EmptyString => None
  | _ => s
  end.

Definition resolve_api_key (api_key getenv : option string) : Result string :=
  match truthy api_key with
  | Some key => Ok key
  | None =>
      match truthy getenv with
      | Some key => Ok key
      | None => Raise "GEMINI_API_KEY not found in environment variables"
      end
  end.

Module ContractGenerator.
Record t := {
  api_key : string;
  rate_limiter : nat;
  max_tokens : Z;
  temperature : float
}.
End ContractGenerator.

Module ApiUsage.
Record t := {
  tokens_estimated : Z;
  cost_estimate : string
}.
End ApiUsage.

(** The dict of a successful generation; [Metadata] is what
    [extract_contract_metadata] returns. *)
Module GeneratedContract.
Record t (Metadata : Type) := {
  success : bool;
  contract_text : string;
  contract_type : string;
  metadata : Metadata;
  parameters : gmap string string;
  file_path : string;
  generation_time : Z;
  model_used : string;
  generated_at : string;
  api_usage : ApiUsage.t
}.
Arguments success {Metadata}.
Arguments contract_text {Metadata}.
Arguments contract_type {Metadata}.
Arguments metadata {Metadata}.
Arguments parameters {Metadata}.
Arguments file_path {Metadata}.
Arguments generation_time {Metadata}.
Arguments model_used {Metadata}.
Arguments generated_at {Metadata}.
Arguments api_usage {Metadata}.
End GeneratedContract.

Module GenerationFailure.
Record t := {
  success : bool;
  error : string;
  contract_type : string;
  parameters : gmap string string;
  timestamp : string
}.
End GenerationFailure.

(** What [_generate_contract] returns: the validation result that holds an
    error, the dict of a success, or the dict of its [except] branch. *)
Inductive GenerationResult (Validation Metadata : Type) :=
| Rejected (validation_result : Validation)
| Generated (contract : GeneratedContract.t Metadata)
| GenerationFailed (failure : GenerationFailure.t).

Arguments Rejected {Validation Metadata}.
Arguments Generated {Validation Metadata}.
Arguments GenerationFailed {Validation Metadata}.

(** [_extract_parties] *)
Definition _extract_parties (params : gmap string string) : list string :=
  match params !! "party1", params !! "party2" with
  | Some party1, Some party2 => [party1; party2]
  | _, _ =>
      match params !! "client", params !! "provider" with
      | Some client, Some provider => [client; provider]
      | _, _ =>
          match params !! "employer", params !! "employee" with
          | Some employer, Some employee => [employer; employee]
          | _, _ => []
          end
      end
  end.

(** *** Prompts *)

(** A part of an f-string: literal text, or the field [{params['key']}]. *)
Inductive piece :=
| Text (s : string)
| Field (key : string).

(** The f-string over [params], evaluated from left to right; a key that
    [params] lacks raises [KeyError], whose message is the key in quotes. *)
Fixpoint render (template : list piece) (params : gmap string string) : Result string :=
  match template with
  | [] => Ok ""
  | Text s :: rest =>
      tail ← render rest params;
      mret (s ++ tail)
  | Field key :: rest =>
      match params !! key with
      | None => Raise ("'" ++ key ++ "'")
      | Some value =>
          tail ← render rest params;
          mret (value ++ tail)
      end
  end.

(** The double quote. *)
Definition dq : string := String (ascii_of_N 34) EmptyString.

(** The prompt of [generate_nda_contract] *)
Definition nda_prompt : list piece := [
  Text "
        Draft a comprehensive, legally sound mutual non-disclosure agreement with these exact specifications:

        PARTIES AND DETAILS:
        - Party 1 (Disclosing Party): ";
  Field "party1";
  Text "
        - Party 2 (Receiving Party): ";
  Field "party2";
  Text "
        - Effective Date: ";
  Field "date";
  Text "
        - Agreement Term: ";
  Field "term";
  Text "
        - Governing Jurisdiction: ";
  Field "jurisdiction";
  Text ("

        REQUIREMENTS:
        Create a professional, enforceable NDA that includes:

        1. TITLE AND PREAMBLE
        - Clear agreement title
        - Proper legal preamble with parties identification

        2. DEFINITIONS SECTION
        - Comprehensive definition of " ++ dq ++ "Confidential Information" ++ dq ++ "
        - Definition of " ++ dq ++ "Receiving Party" ++ dq ++ " and " ++ dq ++ "Disclosing Party" ++ dq ++ "
        - Definition of " ++ dq ++ "Purpose" ++ dq ++ "

        3. CONFIDENTIALITY OBLIGATIONS
        - Duty to maintain confidentiality
        - Standard of care (reasonable care)
        - Non-disclosure commitments
        - Restrictions on use

        4. PERMITTED DISCLOSURES
        - Publicly available information
        - Information independently developed
        - Information rightfully received from third parties
        - Required disclosures by law or court order

        5. RETURN OF MATERIALS
        - Obligation to return or destroy confidential materials
        - Certification of destruction/return

        6. TERM AND TERMINATION
        - Effective period: ");
  Field "term";
  Text "
        - Survival of obligations post-termination
        - Termination procedures

        7. REMEDIES
        - Acknowledgment that breach may cause irreparable harm
        - Right to seek injunctive relief
        - Monetary damages and attorney fees

        8. GENERAL PROVISIONS
        - Governing law: ";
  Field "jurisdiction";
  Text "
        - Jurisdiction for disputes
        - Entire agreement clause
        - Amendment procedures
        - Severability clause
        - Counterpart execution

        9. SIGNATURE BLOCKS
        - Proper signature blocks for both parties
        - Date and title fields

        FORMAT REQUIREMENTS:
        - Use numbered sections and subsections
        - Professional legal formatting
        - Clear, enforceable language
        - Minimum 2000 words for comprehensiveness
        - Include all standard legal protections

        Generate a complete, professional NDA ready for execution.
        "
].

(** The prompt of [generate_service_agreement] *)
Definition service_prompt : list piece := [
  Text "
        Draft a comprehensive, professional service agreement with these specifications:

        CONTRACT DETAILS:
        - Client: ";
  Field "client";
  Text "
        - Service Provider: ";
  Field "provider";
  Text "
        - Services: ";
  Field "services";
  Text "
        - Compensation: ";
  Field "payment";
  Text "
        - Contract Duration: ";
  Field "duration";
  Text "
        - Effective Date: ";
  Field "date";
  Text "
        - Governing Jurisdiction: ";
  Field "jurisdiction";
  Text "

        REQUIRED SECTIONS:

        1. TITLE AND PARTIES
        - Clear service agreement title
        - Identification of client and service provider

        2. SCOPE OF SERVICES
        - Detailed description: ";
  Field "services";
  Text "
        - Service specifications and deliverables
        - Performance standards and metrics
        - Timeline and milestones

        3. COMPENSATION AND PAYMENT
        - Payment terms: ";
  Field "payment";
  Text "
        - Payment schedule and methods
        - Late payment penalties
        - Expense reimbursement policies
        - Invoice requirements

        4. TERM AND TERMINATION
        - Contract duration: ";
  Field "duration";
  Text "
        - Termination for cause procedures
        - Termination for convenience (30-day notice)
        - Post-termination obligations
        - Final payment procedures

        5. INTELLECTUAL PROPERTY
        - Work product ownership
        - Pre-existing IP rights
        - License grants
        - Third-party IP indemnification

        6. CONFIDENTIALITY
        - Protection of confidential information
        - Non-disclosure obligations
        - Return of confidential materials

        7. WARRANTIES AND REPRESENTATIONS
        - Service provider warranties
        - Client warranties
        - Disclaimer of other warranties

        8. LIMITATION OF LIABILITY
        - Liability caps and limitations
        - Exclusion of consequential damages
        - Indemnification obligations

        9. FORCE MAJEURE
        - Definition of force majeure events
        - Procedures for force majeure situations
        - Suspension and termination rights

        10. GENERAL PROVISIONS
        - Governing law: ";
  Field "jurisdiction";
  Text "
        - Dispute resolution procedures
        - Independent contractor relationship
        - Entire agreement clause
        - Amendment procedures
        - Severability clause
        - Assignment restrictions

        11. SIGNATURE BLOCKS
        - Client and provider signature sections
        - Date and title fields

        FORMAT REQUIREMENTS:
        - Professional legal formatting with numbered sections
        - Clear, enforceable language
        - Comprehensive coverage (minimum 2500 words)
        - Industry-standard clauses and protections

        Create a complete, legally sound service agreement ready for execution.
        "
].

(** The prompt of [generate_employment_agreement] *)
Definition employment_prompt : list piece := [
  Text "
        Draft a comprehensive employment agreement with these specifications:

        EMPLOYMENT DETAILS:
        - Employer: ";
  Field "employer";
  Text "
        - Employee: ";
  Field "employee";
  Text "
        - Position: ";
  Field "position";
  Text "
        - Annual Salary: ";
  Field "salary";
  Text "
        - Start Date: ";
  Field "start_date";
  Text "
        - Governing Jurisdiction: ";
  Field "jurisdiction";
  Text "

        REQUIRED SECTIONS:

        1. PARTIES AND POSITION
        - Employer and employee identification
        - Job title: ";
  Field "position";
  Text "
        - Start date: ";
  Field "start_date";
  Text "

        2. DUTIES AND RESPONSIBILITIES
        - Primary job functions for ";
  Field "position";
  Text "
        - Reporting relationships
        - Performance expectations
        - Professional conduct standards

        3. COMPENSATION AND BENEFITS
        - Annual salary: ";
  Field "salary";
  Text "
        - Payment schedule (bi-weekly/monthly)
        - Overtime policies
        - Benefits eligibility
        - Paid time off policies

        4. TERM OF EMPLOYMENT
        - At-will employment status
        - Notice requirements for resignation
        - Employment duration terms

        5. CONFIDENTIALITY AND NON-DISCLOSURE
        - Protection of employer confidential information
        - Non-disclosure obligations
        - Return of company property

        6. INTELLECTUAL PROPERTY
        - Work-for-hire provisions
        - Assignment of inventions
        - Company ownership of work product

        7. NON-COMPETE AND NON-SOLICITATION (if applicable)
        - Non-competition restrictions
        - Customer non-solicitation
        - Employee non-solicitation
        - Geographic and temporal limitations

        8. TERMINATION
        - Termination for cause definitions
        - Termination procedures
        - Final pay and benefit continuation
        - Return of company property

        9. GENERAL PROVISIONS
        - Governing law: ";
  Field "jurisdiction";
  Text "
        - Entire agreement clause
        - Amendment procedures
        - Severability clause

        10. SIGNATURE BLOCKS
        - Employer and employee signatures
        - Date fields

        Create a legally compliant, comprehensive employment agreement.
        "
].

Module ContractType.
Record t := {
  name : string;
  description : string;
  required_fields : list string;
  estimated_length : string;
  generation_time : string
}.
End ContractType.

(** [get_supported_contract_types] *)
Definition get_supported_contract_types : list (string * ContractType.t) := [
  ("NDA",
   {| ContractType.name := "Non-Disclosure Agreement";
      ContractType.description := "Mutual confidentiality agreement between two parties";
      ContractType.required_fields := ["party1"; "party2"; "date"; "term"; "jurisdiction"];
      ContractType.estimated_length := "2000-3000 words";
      ContractType.generation_time := "15-30 seconds" |});
  ("SERVICE",
   {| ContractType.name := "Service Agreement";
      ContractType.description := "Professional services contract between client and provider";
      ContractType.required_fields :=
        ["client"; "provider"; "services"; "payment"; "duration"; "jurisdiction"; "date"];
      ContractType.estimated_length := "2500-4000 words";
      ContractType.generation_time := "20-40 seconds" |});
  ("EMPLOYMENT",
   {| ContractType.name := "Employment Agreement";
      ContractType.description := "Employment contract between employer and employee";
      ContractType.required_fields :=
        ["employer"; "employee"; "position"; "salary"; "start_date"; "jurisdiction"];
      ContractType.estimated_length := "2000-3500 words";
      ContractType.generation_time := "15-35 seconds" |})
].

(** The dict [validate_generation_request] returns for a type it does not
    support. *)
Module UnsupportedType.
Record t := {
  valid : bool;
  error : string;
  supported_types : list string
}.
End UnsupportedType.

(** What [validate_generation_request] returns: its own dict, or the result
    of [validate_contract_params]. *)
Inductive RequestValidation (Validation : Type) :=
| Unsupported (report : UnsupportedType.t)
| Validated (validation_result : Validation).

Arguments Unsupported {Validation}.
Arguments Validated {Validation}.

Section Components.

(** The float loop of the interpreter's [sum]. *)
Variable py : sum_impl.

(** The external text service: [model.generate_content(prompt)] followed
    by [response.text]. *)
Variable service : string -> Reply.

(** The local calendar: the [datetime.now()] of an instant of the wall
    clock. *)
Variable calendar : Z -> datetime.

(** The value of [GEMINI_API_KEY] in the environment. *)
Variable getenv_api_key : option string.

Definition datetime_now : M datetime := fun w => (Ok (calendar (wall w)), w).

(** An outbound call: it is logged, takes its time, and returns or raises
    as the service decides. *)
Definition generate_content (prompt : string) : M string := fun w =>
  let reply := service prompt in
  (outcome reply, set_wall (set_sent w ((wall w, prompt) :: sent w)) (wall w + took reply)).

(** [ContractRiskAnalyzer.__init__] *)
Definition ContractRiskAnalyzer_init (api_key : option string) : M ContractRiskAnalyzer.t :=
  key ← lift (resolve_api_key api_key getenv_api_key);
  limiter ← RateLimiter_new 15;
  mret {| ContractRiskAnalyzer.api_key := key;
          ContractRiskAnalyzer.rate_limiter := limiter;
          ContractRiskAnalyzer.risk_rules := _load_risk_rules |}.

(** [analyze_contract_comprehensive] *)
Definition analyze_contract_comprehensive (self : ContractRiskAnalyzer.t)
    (contract_text : string) : M AnalysisResult :=
  _ ← wait_if_needed (ContractRiskAnalyzer.rate_limiter self);
  try_except
    (_ ← track_request "contract_analysis";
     let prompt := _create_analysis_prompt contract_text in
     text ← generate_content prompt;
     let ai_analysis := PyStr.strip text in
     now ← datetime_now;
     rule_based_analysis ←
       lift (analyze_contract_rules py (ContractRiskAnalyzer.risk_rules self)
               now contract_text);
     now' ← datetime_now;
     mret (Analyzed (_combine_analyses now' (Some ai_analysis)
                       rule_based_analysis contract_text)))
    (fun e =>
       now ← datetime_now;
       mret (AnalysisFailed
               {| FailureReport.success := false;
                  FailureReport.error := "Contract analysis failed: " ++ e;
                  FailureReport.timestamp := isoformat now |})).

(** The helpers of [utils.py] the generator calls, which the sources do
    not contain: the validation of the parameters with the test
    ["error" in validation_result], the extraction of metadata with the
    lookup [metadata['word_count']] of the log line, and the writing of the
    contract to a file, which returns its path. *)
Variables Validation Metadata : Type.
Variable validate_contract_params : string -> gmap string string -> Validation.
Variable has_error : Validation -> bool.
Variable extract_contract_metadata : string -> Result Metadata.
Variable metadata_word_count : Metadata -> Result Z.
Variable save_contract : string -> string -> list string -> Result string.

(** [int(os.getenv('MAX_TOKENS', 2000))] and
    [float(os.getenv('TEMPERATURE', 0.1))] where the environment holds
    values that parse; the [ValueError] of a value that does not parse is not
    modelled. *)
Variable env_max_tokens : Z.
Variable env_temperature : float.

(** [ContractGenerator.__init__] *)
Definition ContractGenerator_init (api_key : option string) : M ContractGenerator.t :=
  key ← lift (resolve_api_key api_key getenv_api_key);
  limiter ← RateLimiter_new 15;
  mret {| ContractGenerator.api_key := key;
          ContractGenerator.rate_limiter := limiter;
          ContractGenerator.max_tokens := env_max_tokens;
          ContractGenerator.temperature := env_temperature |}.

(** [_generate_contract]; the time of the generation is counted in whole
    time units, which rounding to two decimals leaves as they are. *)
Definition _generate_contract (self : ContractGenerator.t) (contract_type prompt : string)
    (params : gmap string string) : M (GenerationResult Validation Metadata) :=
  let validation_result := validate_contract_params contract_type params in
  if has_error validation_result then mret (Rejected validation_result)
  else
    _ ← wait_if_needed (ContractGenerator.rate_limiter self);
    try_except
      (_ ← track_request "contract_generation";
       start_time ← time_time;
       text ← generate_content prompt;
       end_time ← time_time;
       let generation_time := end_time - start_time in
       let contract_text := PyStr.strip text in
       metadata ← lift (extract_contract_metadata contract_text);
       let parties := _extract_parties params in
       file_path ← lift (save_contract contract_text contract_type parties);
       now ← datetime_now;
       _ ← lift (metadata_word_count metadata);
       mret (Generated
               {| GeneratedContract.success := true;
                  GeneratedContract.contract_text := contract_text;
                  GeneratedContract.contract_type := contract_type;
                  GeneratedContract.metadata := metadata;
                  GeneratedContract.parameters := params;
                  GeneratedContract.file_path := file_path;
                  GeneratedContract.generation_time := generation_time;
                  GeneratedContract.model_used := "Google Gemini 1.5 Flash (FREE)";
                  GeneratedContract.generated_at := isoformat now;
                  GeneratedContract.api_usage :=
                    {| ApiUsage.tokens_estimated := PyStr.len contract_text / 4;
                       ApiUsage.cost_estimate := "$0.00 (Free Tier)" |} |}))
      (fun e =>
         now ← datetime_now;
         mret (GenerationFailed
                 {| GenerationFailure.success := false;
                    GenerationFailure.error := "Contract generation failed: " ++ e;
                    GenerationFailure.contract_type := contract_type;
                    GenerationFailure.parameters := params;
                    GenerationFailure.timestamp := isoformat now |})).

(** The two constructor calls of [run] ([app.py], lines 80 and 81): the
    generator is built, then the analyzer.  [run] makes them once its own
    check of the key has passed, within a [try] whose handler displays the
    exception; neither is part of this definition. *)
Definition init_components : M (ContractGenerator.t * ContractRiskAnalyzer.t) :=
  contract_generator ← ContractGenerator_init None;
  risk_analyzer ← ContractRiskAnalyzer_init None;
  mret (contract_generator, risk_analyzer).

(** [generate_nda_contract]: the prompt is built first, then handed on. *)
Definition generate_nda_contract (self : ContractGenerator.t)
    (params : gmap string string) : M (GenerationResult Validation Metadata) :=
  prompt ← lift (render nda_prompt params);
  _generate_contract self "NDA" prompt params.

(** [generate_service_agreement] *)
Definition generate_service_agreement (self : ContractGenerator.t)
    (params : gmap string string) : M (GenerationResult Validation Metadata) :=
  prompt ← lift (render service_prompt params);
  _generate_contract self "SERVICE" prompt params.

(** [generate_employment_agreement] *)
Definition generate_employment_agreement (self : ContractGenerator.t)
    (params : gmap string string) : M (GenerationResult Validation Metadata) :=
  prompt ← lift (render employment_prompt params);
  _generate_contract self "EMPLOYMENT" prompt params.

(** [validate_generation_request] *)
Definition validate_generation_request (contract_type : string)
    (params : gmap string string) : RequestValidation Validation :=
  let supported_types := get_supported_contract_types in
  if existsb (String.eqb (PyStr.upper contract_type)) (map fst supported_types)
  then Validated (validate_contract_params contract_type params)
  else Unsupported
         {| UnsupportedType.valid := false;
            UnsupportedType.error := "Unsupported contract type: " ++ contract_type;
            UnsupportedType.supported_types := map fst supported_types |}.

End Components.

(** * Properties *)

(** ** What a pattern means *)

Module ReFacts.
Import Re.

(** The strings a regular expression denotes. *)
Inductive matches : regex -> string -> Prop :=
| MEps : matches Eps ""
| MSym cs c : cset_mem cs c = true -> matches (Sym cs) (String c "")
| MCat r1 r2 s1 s2 :
    matches r1 s1 -> matches r2 s2 -> matches (Cat r1 r2) (s1 ++ s2)
| MAltL r1 r2 s : matches r1 s -> matches (Alt r1 r2) s
| MAltR r1 r2 s : matches r2 s -> matches (Alt r1 r2) s
| MStarNil r : matches (Star r) ""
| MStarApp r s1 s2 :
    matches r s1 -> matches (Star r) s2 -> matches (Star r) (s1 ++ s2).

Lemma append_nil_l (s : string) : "" ++ s = s.
Proof. reflexivity. Qed.

Lemma append_cons c (s1 s2 : string) : String c s1 ++ s2 = String c (s1 ++ s2).
Proof. reflexivity. Qed.

Lemma append_nil_r (s : string) : s ++ "" = s.
Proof.
  induction s as [|c s IH]; [reflexivity|]. now rewrite append_cons, IH.
Qed.

Lemma append_eq_nil (s1 s2 : string) : s1 ++ s2 = "" -> s1 = "" /\ s2 = "".
Proof.
  destruct s1; [rewrite append_nil_l; auto|rewrite append_cons; discriminate].
Qed.

Lemma nullable_matches r : nullable r = true <-> matches r "".
Proof.
  split.
  - induction r; cbn; intros H; try discriminate.
    + constructor.
    + apply andb_prop in H as [H1 H2]. apply (MCat _ _ "" ""); auto.
    + apply orb_prop in H as [H|H]; [apply MAltL|apply MAltR]; auto.
    + constructor.
  - remember "" as s eqn:Hs. induction 1; cbn; try reflexivity; try discriminate.
    + apply append_eq_nil in Hs as [-> ->]. rewrite IHmatches1, IHmatches2; auto.
    + rewrite IHmatches; auto.
    + rewrite IHmatches; auto. apply orb_true_r.
Qed.

Lemma matches_void s : ~ matches Void s.
Proof. inversion 1. Qed.

Lemma cat_inv r1 r2 s :
  matches (Cat r1 r2) s ->
  exists s1 s2, s = s1 ++ s2 /\ matches r1 s1 /\ matches r2 s2.
Proof. inversion 1; subst; eauto. Qed.

Lemma matches_cat r1 r2 s : matches (cat r1 r2) s <-> matches (Cat r1 r2) s.
Proof.
  assert (Hl : forall r s, matches (Cat Eps r) s <-> matches r s).
  { intros r' s'. split.
    - inversion 1 as [| |? ? ? ? H1 H2| | | |]; subst. inversion H1; subst. exact H2.
    - intros H. apply (MCat Eps r' "" s'); [constructor|exact H]. }
  assert (Hr : forall r s, matches (Cat r Eps) s <-> matches r s).
  { intros r' s'. split.
    - inversion 1 as [| |? ? ? ? H1 H2| | | |]; subst. inversion H2; subst.
      now rewrite append_nil_r.
    - intros H. rewrite <- (append_nil_r s'). apply MCat; [exact H|constructor]. }
  assert (Hvl : forall r s, matches (Cat Void r) s <-> matches Void s).
  { intros r' s'. split; inversion 1; subst;
      match goal with H : matches Void _ |- _ => inversion H end. }
  assert (Hvr : forall r s, matches (Cat r Void) s <-> matches Void s).
  { intros r' s'. split; inversion 1; subst;
      match goal with H : matches Void _ |- _ => inversion H end. }
  destruct r1, r2; cbn [cat];
    rewrite ?Hl, ?Hr, ?Hvl, ?Hvr; try reflexivity.
Qed.

Lemma matches_alt r1 r2 s : matches (alt r1 r2) s <-> matches (Alt r1 r2) s.
Proof.
  assert (Hl : forall r s, matches (Alt Void r) s <-> matches r s).
  { intros r' s'. split.
    - inversion 1; subst; [|assumption].
      match goal with H : matches Void _ |- _ => inversion H end.
    - now apply MAltR. }
  assert (Hr : forall r s, matches (Alt r Void) s <-> matches r s).
  { intros r' s'. split.
    - inversion 1; subst; [assumption|].
      match goal with H : matches Void _ |- _ => inversion H end.
    - now apply MAltL. }
  destruct r1, r2; cbn [alt]; rewrite ?Hl, ?Hr; try reflexivity.
Qed.

(** A non-empty match of a star starts with a non-empty match of its body. *)
Lemma star_cons r c s :
  matches (Star r) (String c s) ->
  exists s1 s2, s = s1 ++ s2 /\ matches r (String c s1) /\ matches (Star r) s2.
Proof.
  remember (Star r) as r' eqn:Hr. remember (String c s) as cs eqn:Hcs.
  intros H. revert r c s Hr Hcs.
  induction H as [| | | | | |r0 s1 s2 H1 _ H2 IH2]; intros body c0 rest Hr Hcs;
    try discriminate.
  injection Hr as ->. destruct s1 as [|c1 s1].
  - rewrite append_nil_l in Hcs. apply (IH2 body c0 rest eq_refl Hcs).
  - rewrite append_cons in Hcs. injection Hcs as -> <-. eauto.
Qed.

Lemma deriv_matches c r : forall s, matches (deriv c r) s <-> matches r (String c s).
Proof.
  induction r as [| |cs|r1 IH1 r2 IH2|r1 IH1 r2 IH2|r IH]; intros s; cbn [deriv].
  - split; inversion 1.
  - split; inversion 1.
  - destruct (cset_mem cs c) eqn:Hmem; split; intros H.
    + inversion H; subst. now constructor.
    + inversion H; subst. constructor.
    + inversion H.
    + inversion H; subst. congruence.
  - assert (Hcat : matches (Cat (deriv c r1) r2) s \/
                   (nullable r1 = true /\ matches (deriv c r2) s) <->
                   matches (Cat r1 r2) (String c s)).
    { split.
      - intros [H|[Hn H]].
        + apply cat_inv in H as (s1 & s2 & -> & H1 & H2).
          apply IH1 in H1. apply (MCat r1 r2 (String c s1) s2); assumption.
        + apply nullable_matches in Hn. apply IH2 in H.
          apply (MCat r1 r2 "" (String c s)); assumption.
      - intros H. apply cat_inv in H as (s1 & s2 & Heq & H1 & H2).
        destruct s1 as [|c1 s1];
          [rewrite append_nil_l in Heq|rewrite append_cons in Heq].
        + subst s2. right. split; [now apply nullable_matches|now apply IH2].
        + injection Heq as <- ->. left. apply MCat; [now apply IH1|assumption]. }
    rewrite <- Hcat. destruct (nullable r1).
    + rewrite matches_alt. split.
      * inversion 1; subst; [left; now apply matches_cat|right; auto].
      * intros [H|[_ H]]; [apply MAltL; now apply matches_cat|now apply MAltR].
    + rewrite matches_cat. split; [auto|]. intros [H|[Hn _]]; [exact H|discriminate].
  - rewrite matches_alt. split.
    + inversion 1; subst; [apply MAltL; now apply IH1|apply MAltR; now apply IH2].
    + inversion 1; subst; [apply MAltL; now apply IH1|apply MAltR; now apply IH2].
  - rewrite matches_cat. split.
    + intros H. apply cat_inv in H as (s1 & s2 & -> & H1 & H2).
      apply IH in H1. apply (MStarApp r (String c s1) s2); assumption.
    + intros H. apply star_cons in H as (s1 & s2 & -> & H1 & H2).
      apply MCat; [now apply IH|assumption].
Qed.

(** The matcher decides the meaning. *)
Lemma fullmatch_matches s : forall r, fullmatch r s = true <-> matches r s.
Proof.
  induction s as [|c s IH]; intros r; cbn [fullmatch].
  - apply nullable_matches.
  - rewrite IH. apply deriv_matches.
Qed.

Lemma matches_any s : matches (Star (Sym CAll)) s.
Proof.
  induction s as [|c s IH]; [constructor|].
  apply (MStarApp _ (String c "") s); [now constructor|exact IH].
Qed.

(** [search] finds the pattern exactly when some substring of the text is
    in its meaning. *)
Lemma search_matches pattern r text :
  compile pattern = Some r ->
  (search pattern text = Some true <->
   exists before found after,
     text = before ++ found ++ after /\ matches r found).
Proof.
  intros Hc. unfold search. rewrite Hc. split.
  - intros [= H]. apply fullmatch_matches in H. unfold anywhere in H.
    apply cat_inv in H as (before & rest & -> & _ & Hrest).
    apply cat_inv in Hrest as (found & after & -> & Hfound & _).
    eauto.
  - intros (before & found & after & -> & Hfound). f_equal.
    apply fullmatch_matches. unfold anywhere.
    apply MCat; [apply matches_any|]. apply MCat; [exact Hfound|apply matches_any].
Qed.

End ReFacts.

Example compile_amount :
  Re.compile "\$[\d,]+" =
    Some (Re.Cat (Re.Cat Re.Eps (Re.Sym (Re.CChar "$")))
            (Re.Cat (Re.Sym (Re.CUnion Re.CDigit (Re.CChar ",")))
                    (Re.Star (Re.Sym (Re.CUnion Re.CDigit (Re.CChar ",")))))).
Proof. reflexivity. Qed.

Example compile_group_outside_fragment : Re.compile "(a|b)" = None.
Proof. reflexivity. Qed.

Example search_amount : Re.search "\$[\d,]+" "pay $1,000 now" = Some true.
Proof. reflexivity. Qed.

Example search_optional : Re.search "non.?disclos" "a non-disclosure" = Some true.
Proof. reflexivity. Qed.

Example search_dot_stops_at_line_end :
  Re.search "liability.*limit" "liability
limit" = Some false.
Proof. reflexivity. Qed.

(** ** The rule engine as a function of the missing rules *)

(** Does the pattern compile, and does it hit the text? *)
Definition compiles (pattern : string) : bool :=
  match Re.compile pattern with Some _ => true | None => false end.

Definition hit (text pattern : string) : bool :=
  match Re.search pattern text with Some b => b | None => false end.

(** A catalog is well formed when each pattern of each rule compiles. *)
Definition well_formed (risk_rules : Catalog) : bool :=
  forallb (fun item => forallb compiles (Rule.patterns item.2)) risk_rules.

(** The rule is missing from the text: none of its patterns hits. *)
Definition absent (contract_lower : string) (rule : Rule.t) : bool :=
  match filter (fun p => hit contract_lower p = true) (Rule.patterns rule) with
  | [] => true
  | _ :: _ => false
  end.

(** The rules missing from the text, in catalog order. *)
Definition missing (risk_rules : Catalog) (contract_lower : string) : Catalog :=
  filter (fun item => absent contract_lower item.2 = true) risk_rules.

Definition findings (items : Catalog) : list Risk.t :=
  map (fun item => make_risk item.1 item.2) items.

Definition weights (items : Catalog) : list float :=
  map (fun item => Rule.weight item.2) items.

(** The score before rounding, from the missing rules. *)
Definition normalized_of (py : sum_impl) (risk_rules missing_rules : Catalog) : float :=
  normalize (sum_naive 0%float (weights missing_rules)) (max_possible_risk py risk_rules).

Definition normalized_score (py : sum_impl) (risk_rules : Catalog) (contract_text : string) : float :=
  normalized_of py risk_rules (missing risk_rules (PyStr.lower contract_text)).

(** All the subsequences of a list. *)
Fixpoint sublists {A} (l : list A) : list (list A) :=
  match l with
  | [] => [[]]
  | x :: l' => map (cons x) (sublists l') ++ sublists l'
  end.

Lemma filter_in_sublists {A} (P : A -> Prop) `{!∀ x, Decision (P x)} (l : list A) :
  In (filter P l) (sublists l).
Proof.
  induction l as [|x l IH]; simpl.
  - now left.
  - rewrite filter_cons. apply in_or_app. destruct (decide (P x)).
    + left. now apply in_map.
    + now right.
Qed.

Lemma missing_in_sublists risk_rules contract_lower :
  In (missing risk_rules contract_lower) (sublists risk_rules).
Proof. apply filter_in_sublists. Qed.

Lemma patterns_found_ok ps text :
  forallb compiles ps = true ->
  patterns_found ps text = Ok (filter (fun p => hit text p = true) ps).
Proof.
  induction ps as [|p ps IH]; simpl; intros Hc; [reflexivity|].
  apply andb_prop in Hc as [Hp Hps].
  rewrite filter_cons, (IH Hps).
  assert (Hs : Re.search p text = Some (hit text p)).
  { unfold hit, Re.search, compiles in *. now destruct (Re.compile p). }
  rewrite Hs. simpl. now destruct (hit text p).
Qed.

Lemma missing_cons risk_id rule items text :
  missing ((risk_id, rule) :: items) text =
    if absent text rule then (risk_id, rule) :: missing items text
    else missing items text.
Proof.
  unfold missing. rewrite filter_cons. simpl. now destruct (absent text rule).
Qed.

Lemma absent_found text rule :
  absent text rule = true <->
  filter (fun p => hit text p = true) (Rule.patterns rule) = [].
Proof. unfold absent. now destruct (filter _ _). Qed.

Lemma scan_rules_ok items text st :
  well_formed items = true ->
  scan_rules items text st =
    Ok ((st.1 ++ findings (missing items text))%list,
        sum_naive st.2 (weights (missing items text))).
Proof.
  revert st. induction items as [|[risk_id rule] items IH]; intros st Hwf.
  - simpl. rewrite app_nil_r. now destruct st.
  - simpl in Hwf. apply andb_prop in Hwf as [Hrule Hitems].
    rewrite missing_cons. cbn [scan_rules].
    rewrite (patterns_found_ok _ _ Hrule). cbn [mbind Result_bind].
    unfold absent.
    destruct (filter _ (Rule.patterns rule)) as [|p found].
    + rewrite (IH _ Hitems). cbn. now rewrite <- app_assoc.
    + apply (IH _ Hitems).
Qed.

(** The report of a well-formed catalog, field by field. *)
Lemma analyze_contract_rules_ok py risk_rules now contract_text :
  well_formed risk_rules = true ->
  analyze_contract_rules py risk_rules now contract_text =
    let found := findings (missing risk_rules (PyStr.lower contract_text)) in
    let normalized := normalized_score py risk_rules contract_text in
    Ok {| RuleReport.success := true;
          RuleReport.analysis_type := "Rule-Based";
          RuleReport.overall_risk_score := py_round2 normalized;
          RuleReport.risk_level := level_of normalized;
          RuleReport.total_risks := Z.of_nat (length found);
          RuleReport.risks_by_severity := _group_risks_by_severity found;
          RuleReport.risks_identified := found;
          RuleReport.contract_length := Z.of_nat (length (PyStr.split contract_text));
          RuleReport.analysis_timestamp := isoformat now |}.
Proof.
  intros Hwf. unfold analyze_contract_rules.
  rewrite (scan_rules_ok _ _ _ Hwf). reflexivity.
Qed.

Lemma catalog_well_formed : well_formed _load_risk_rules = true.
Proof. vm_compute. reflexivity. Qed.

(** ** Order facts on floats *)

Module FloatOrder.

(** A key under which the floats other than NaN are ordered
    lexicographically: sign class, then exponent, then mantissa. *)
Definition rank (x : spec_float) : option (Z * Z * Z) :=
  match x with
  | S754_nan => None
  | S754_infinity true => Some (-2, 0, 0)
  | S754_infinity false => Some (2, 0, 0)
  | S754_zero _ => Some (0, 0, 0)
  | S754_finite true m e => Some (-1, - e, Zneg m)
  | S754_finite false m e => Some (1, e, Zpos m)
  end.

Definition lex (a b : Z * Z * Z) : comparison :=
  match a.1.1 ?= b.1.1 with
  | Eq => match a.1.2 ?= b.1.2 with
          | Eq => a.2 ?= b.2
          | c => c
          end
  | c => c
  end.

Lemma SFcompare_rank x y :
  SFcompare x y =
    match rank x, rank y with
    | Some a, Some b => Some (lex a b)
    | _, _ => None
    end.
Proof.
  destruct x as [[|]|[|]| |[|] m1 e1], y as [[|]|[|]| |[|] m2 e2];
    try reflexivity; unfold lex; cbn.
  rewrite Z.compare_opp, (Z.compare_antisym e1 e2).
  destruct (e1 ?= e2); reflexivity.
Qed.

Lemma lex_lt_le a b c : lex a b = Lt -> lex b c <> Gt -> lex c a = Gt.
Proof.
  destruct a as [[a1 a2] a3], b as [[b1 b2] b3], c as [[c1 c2] c3].
  unfold lex; cbn. intros Hab Hbc.
  destruct (Z.compare_spec a1 b1), (Z.compare_spec a2 b2), (Z.compare_spec a3 b3);
    try discriminate;
    destruct (Z.compare_spec b1 c1), (Z.compare_spec b2 c2), (Z.compare_spec b3 c3);
    try (exfalso; apply Hbc; reflexivity);
    destruct (Z.compare_spec c1 a1), (Z.compare_spec c2 a2), (Z.compare_spec c3 a3);
    try reflexivity; lia.
Qed.

(** [x < a] and [a <= b] leave no room for [b <= x]. *)
Lemma lt_le_not_le (x a b : float) :
  (x <? a)%float = true -> (a <=? b)%float = true -> (b <=? x)%float = false.
Proof.
  rewrite FloatAxioms.ltb_spec, !FloatAxioms.leb_spec. unfold SFltb, SFleb.
  rewrite !SFcompare_rank.
  destruct (rank (Prim2SF x)) as [rx|], (rank (Prim2SF a)) as [ra|],
    (rank (Prim2SF b)) as [rb|]; try discriminate.
  intros Hxa Hab.
  rewrite (lex_lt_le rx ra rb); [reflexivity| |].
  - now destruct (lex rx ra).
  - now destruct (lex ra rb).
Qed.

End FloatOrder.

(** ** Properties of the rule engine *)

(** C3. The risk level is HIGH from 0.7 on, MEDIUM from 0.4 up to but not
    including 0.7, and LOW below 0.4; the scores 0.699999, 0.7, 0.399999 and
    0.4 fall on the stated sides of the two thresholds; and the level of a
    report is the level of its normalized score. *)
Theorem risk_level_thresholds (score : float) :
  ((0.7 <=? score)%float = true -> level_of score = "HIGH") /\
  ((0.4 <=? score)%float = true -> (score <? 0.7)%float = true ->
     level_of score = "MEDIUM") /\
  ((score <? 0.4)%float = true -> level_of score = "LOW") /\
  level_of 0.699999 = "MEDIUM" /\
  level_of 0.7 = "HIGH" /\
  level_of 0.399999 = "LOW" /\
  level_of 0.4 = "MEDIUM" /\
  (forall py now contract_text, exists report,
     analyze_contract_rules py _load_risk_rules now contract_text = Ok report /\
     RuleReport.risk_level report =
       level_of (normalized_score py _load_risk_rules contract_text)).
Proof.
  assert (Hreport : forall py now contract_text, exists report,
            analyze_contract_rules py _load_risk_rules now contract_text = Ok report /\
            RuleReport.risk_level report =
              level_of (normalized_score py _load_risk_rules contract_text)).
  { intros py now contract_text.
    rewrite (analyze_contract_rules_ok _ _ _ _ catalog_well_formed).
    eexists. split; reflexivity. }
  unfold level_of.
  split; [|split; [|split; [|split; [|split; [|split; [|split]]]]]];
    try exact Hreport; try (vm_compute; reflexivity).
  - intros ->. reflexivity.
  - intros H4 H7.
    rewrite (FloatOrder.lt_le_not_le score 0.7 0.7 H7 eq_refl), H4. reflexivity.
  - intros H4.
    rewrite (FloatOrder.lt_le_not_le score 0.4 0.7 H4 eq_refl).
    rewrite (FloatOrder.lt_le_not_le score 0.4 0.4 H4 eq_refl). reflexivity.
Qed.

(** Two clock readings used in the examples. *)
Definition morning : datetime :=
  {| year := 2024; month := 5; day := 7;
     hour := 9; minute := 3; second := 0; microsecond := 120 |}.

Definition evening : datetime :=
  {| year := 2024; month := 5; day := 7;
     hour := 18; minute := 30; second := 12; microsecond := 0 |}.

(** A text that addresses liability limits and governing law and nothing
    else of the catalog. *)
Definition two_clause_text : string := "Liability limit governed by".

Lemma max_possible_positive py :
  (0 <? max_possible_risk py _load_risk_rules)%float = true.
Proof. destruct py; vm_compute; reflexivity. Qed.

(** C4. On the empty text every rule of the catalog is a finding, in catalog
    order, and the score, before and after rounding, is 1.0; some rule of the
    catalog has a weight other than zero. *)
Theorem empty_text_every_rule_missing (py : sum_impl) (now : datetime) :
  exists report,
    analyze_contract_rules py _load_risk_rules now "" = Ok report /\
    RuleReport.risks_identified report = findings _load_risk_rules /\
    map Risk.risk_id (RuleReport.risks_identified report) = map fst _load_risk_rules /\
    RuleReport.total_risks report = Z.of_nat (length _load_risk_rules) /\
    normalized_score py _load_risk_rules "" = 1%float /\
    RuleReport.overall_risk_score report = 1%float /\
    existsb (fun item => negb (Rule.weight item.2 =? 0)%float) _load_risk_rules = true.
Proof.
  rewrite (analyze_contract_rules_ok _ _ _ _ catalog_well_formed).
  eexists. split; [reflexivity|]. cbn [RuleReport.risks_identified
    RuleReport.total_risks RuleReport.overall_risk_score].
  assert (Hmiss : missing _load_risk_rules (PyStr.lower "") = _load_risk_rules)
    by (vm_compute; reflexivity).
  assert (Hnorm : normalized_score py _load_risk_rules "" = 1%float)
    by (destruct py; vm_compute; reflexivity).
  rewrite Hmiss, Hnorm. repeat split; vm_compute; reflexivity.
Qed.

(** The score of every choice of missing rules lies in the unit interval,
    before and after rounding. *)
Definition in_unit (x : float) : bool := ((0 <=? x) && (x <=? 1))%float.

Definition scores_in_unit (py : sum_impl) (missing_rules : Catalog) : bool :=
  let normalized := normalized_of py _load_risk_rules missing_rules in
  (in_unit normalized && in_unit (py_round2 normalized))%bool.

Lemma all_scores_in_unit py :
  forallb (scores_in_unit py) (sublists _load_risk_rules) = true.
Proof. destruct py; vm_compute; reflexivity. Qed.

Lemma scores_in_unit_text py contract_text :
  let normalized := normalized_score py _load_risk_rules contract_text in
  in_unit normalized = true /\ in_unit (py_round2 normalized) = true.
Proof.
  pose proof (all_scores_in_unit py) as H.
  rewrite forallb_forall in H.
  specialize (H _ (missing_in_sublists _load_risk_rules (PyStr.lower contract_text))).
  unfold scores_in_unit in H. apply andb_prop in H. exact H.
Qed.

Lemma round2_zero : py_round2 0%float = 0%float.
Proof. vm_compute. reflexivity. Qed.

(** C5, as amended. For every text the reported score is
    [min(total weight of the missing rules / total weight of all rules, 1.0)]
    rounded to two decimals, and both that quotient and the reported score lie
    between 0 and 1; a catalog whose total weight is not positive gives the
    score 0. *)
Theorem overall_risk_score_range (py : sum_impl) (now : datetime) (contract_text : string) :
  (exists report,
     analyze_contract_rules py _load_risk_rules now contract_text = Ok report /\
     let total :=
       sum_naive 0%float (weights (missing _load_risk_rules (PyStr.lower contract_text))) in
     let normalized :=
       py_min (total / max_possible_risk py _load_risk_rules)%float 1%float in
     RuleReport.overall_risk_score report = py_round2 normalized /\
     (0 <=? normalized)%float = true /\ (normalized <=? 1)%float = true /\
     (0 <=? RuleReport.overall_risk_score report)%float = true /\
     (RuleReport.overall_risk_score report <=? 1)%float = true) /\
  (forall risk_rules report,
     (0 <? max_possible_risk py risk_rules)%float = false ->
     analyze_contract_rules py risk_rules now contract_text = Ok report ->
     RuleReport.overall_risk_score report = 0%float) /\
  (exists report,
     analyze_contract_rules py [] now contract_text = Ok report /\
     RuleReport.overall_risk_score report = 0%float).
Proof.
  split; [|split].
  - rewrite (analyze_contract_rules_ok _ _ _ _ catalog_well_formed).
    eexists. split; [reflexivity|]. cbn [RuleReport.overall_risk_score].
    destruct (scores_in_unit_text py contract_text) as [Hn Hr].
    unfold normalized_score, normalized_of, normalize, in_unit in *.
    rewrite (max_possible_positive py) in *.
    apply andb_prop in Hn as [? ?]. apply andb_prop in Hr as [? ?]. auto.
  - intros risk_rules report Hmax. unfold analyze_contract_rules.
    destruct (scan_rules risk_rules _ _) as [st|msg]; [|discriminate].
    cbn. intros [= <-]. cbn. unfold normalize. rewrite Hmax. apply round2_zero.
  - eexists. split; reflexivity.
Qed.

(** C5 as stated fails: on [two_clause_text] the reported score is 0.7 while
    the quotient of the weights is below it. *)
Lemma reported_score_is_not_the_quotient :
  exists report,
    analyze_contract_rules SumPlain _load_risk_rules morning two_clause_text = Ok report /\
    let total :=
      sum_naive 0%float (weights (missing _load_risk_rules (PyStr.lower two_clause_text))) in
    let normalized :=
      py_min (total / max_possible_risk SumPlain _load_risk_rules)%float 1%float in
    (normalized <? RuleReport.overall_risk_score report)%float = true /\
    RuleReport.overall_risk_score report <> normalized.
Proof.
  eexists. split; [vm_compute; reflexivity|]. cbv zeta.
  match goal with |- (?n <? ?sc)%float = true /\ _ =>
    assert (Hlt : (n <? sc)%float = true) by (vm_compute; reflexivity);
    assert (Hirr : (n <? n)%float = false) by (vm_compute; reflexivity)
  end.
  split; [exact Hlt|]. congruence.
Qed.

(** *** Grouping by severity *)

Definition severities : list string := ["HIGH"; "MEDIUM"; "LOW"].

Definition empty_groups : gmap string (list Risk.t) :=
  <["HIGH" := []]> (<["MEDIUM" := []]> (<["LOW" := []]> ∅)).

Lemma bucket_group_step (grouped : gmap string (list Risk.t)) risk sev :
  is_Some (grouped !! sev) ->
  is_Some (group_step grouped risk !! sev) /\
  bucket (group_step grouped risk) sev =
    (bucket grouped sev ++ filter (fun r => Risk.severity r = sev) [risk])%list.
Proof.
  intros [b Hb]. unfold group_step, bucket.
  rewrite filter_cons, filter_nil.
  destruct (decide (Risk.severity risk = sev)) as [Heq|Hne]; [subst sev|].
  - rewrite Hb, lookup_insert_eq. cbn. eauto.
  - destruct (grouped !! Risk.severity risk) as [b'|].
    + rewrite lookup_insert_ne by done. rewrite Hb, app_nil_r. eauto.
    + rewrite Hb, app_nil_r. eauto.
Qed.

Lemma bucket_fold risks (grouped : gmap string (list Risk.t)) sev :
  is_Some (grouped !! sev) ->
  bucket (fold_left group_step risks grouped) sev =
    (bucket grouped sev ++ filter (fun r => Risk.severity r = sev) risks)%list.
Proof.
  revert grouped. induction risks as [|risk risks IH]; intros grouped Hsome.
  - cbn. now rewrite app_nil_r.
  - destruct (bucket_group_step grouped risk sev Hsome) as [Hsome' Hb].
    cbn [fold_left]. rewrite (IH _ Hsome'), Hb, <- app_assoc.
    f_equal. now rewrite (filter_app _ [risk] risks).
Qed.

(** Each bucket holds the findings of its severity, in the order found. *)
Lemma bucket_group risks sev :
  sev ∈ severities ->
  bucket (_group_risks_by_severity risks) sev =
    filter (fun r => Risk.severity r = sev) risks.
Proof.
  intros Hsev. unfold _group_risks_by_severity. rewrite bucket_fold.
  - unfold severities in Hsev.
    repeat (apply elem_of_cons in Hsev as [->|Hsev]); try reflexivity.
    now apply elem_of_nil in Hsev.
  - unfold severities in Hsev.
    repeat (apply elem_of_cons in Hsev as [->|Hsev]); try (eexists; reflexivity).
    now apply elem_of_nil in Hsev.
Qed.

(** When each finding has one of the three severities, the buckets share
    them out. *)
Lemma buckets_cover risks :
  Forall (fun r => Risk.severity r ∈ severities) risks ->
  (length (filter (fun r => Risk.severity r = "HIGH") risks)
   + length (filter (fun r => Risk.severity r = "MEDIUM") risks)
   + length (filter (fun r => Risk.severity r = "LOW") risks))%nat = length risks.
Proof.
  induction 1 as [|r risks Hr _ IH]; [reflexivity|].
  rewrite !filter_cons. unfold severities in Hr.
  repeat (apply elem_of_cons in Hr as [->|Hr]);
    [| | |now apply elem_of_nil in Hr];
    repeat (destruct (decide _) as [?|?]; try discriminate; try congruence);
    cbn [length]; lia.
Qed.

Lemma catalog_severities :
  Forall (fun r => Risk.severity r ∈ severities) (findings _load_risk_rules).
Proof.
  unfold severities. repeat constructor; cbn; set_solver.
Qed.

Lemma findings_sublist risk_rules contract_lower :
  sublist (findings (missing risk_rules contract_lower)) (findings risk_rules).
Proof.
  induction risk_rules as [|[risk_id rule] items IH]; [constructor|].
  rewrite missing_cons. destruct (absent contract_lower rule); cbn.
  - now apply sublist_skip.
  - now apply sublist_cons.
Qed.

Lemma found_severities risk_rules contract_lower :
  Forall (fun r => Risk.severity r ∈ severities) (findings risk_rules) ->
  Forall (fun r => Risk.severity r ∈ severities)
    (findings (missing risk_rules contract_lower)).
Proof.
  rewrite !Forall_forall. intros Hall r Hr. apply Hall.
  eapply sublist_subseteq; [apply findings_sublist|exact Hr].
Qed.

(** C6. In every report of the rule engine the three buckets share out the
    findings: their lengths add up to [total_risks], each bucket is the
    findings of its severity in the order of [risks_identified], and that
    order is the order of the catalog. *)
Theorem severity_buckets_partition (py : sum_impl) (now : datetime) (contract_text : string) :
  exists report,
    analyze_contract_rules py _load_risk_rules now contract_text = Ok report /\
    let grouped := RuleReport.risks_by_severity report in
    let found := RuleReport.risks_identified report in
    Z.of_nat (length (bucket grouped "HIGH") + length (bucket grouped "MEDIUM")
              + length (bucket grouped "LOW")) = RuleReport.total_risks report /\
    (forall sev, sev ∈ severities ->
       bucket grouped sev = filter (fun r => Risk.severity r = sev) found) /\
    sublist found (findings _load_risk_rules) /\
    (forall sev, sev ∈ severities ->
       sublist (bucket grouped sev) (findings _load_risk_rules)).
Proof.
  rewrite (analyze_contract_rules_ok _ _ _ _ catalog_well_formed).
  eexists. split; [reflexivity|].
  cbn [RuleReport.risks_by_severity RuleReport.risks_identified RuleReport.total_risks].
  set (found := findings (missing _load_risk_rules (PyStr.lower contract_text))).
  assert (Hsub : sublist found (findings _load_risk_rules)) by apply findings_sublist.
  assert (Hbucket : forall sev, sev ∈ severities ->
            bucket (_group_risks_by_severity found) sev =
              filter (fun r => Risk.severity r = sev) found)
    by (intros sev Hsev; now apply bucket_group).
  repeat split.
  - rewrite !Hbucket by (unfold severities; set_solver).
    f_equal. apply buckets_cover, found_severities, catalog_severities.
  - exact Hbucket.
  - exact Hsub.
  - intros sev Hsev. rewrite (Hbucket sev Hsev).
    etransitivity; [apply sublist_filter|exact Hsub].
Qed.

(** C10. The reported score is the normalized score rounded to two decimals
    while the level is read off the unrounded one; on [two_clause_text] the
    missing weights come to 3.7 of 5.3, the unrounded score lies in
    [0.695, 0.7), and the report carries the score 0.7 with the level MEDIUM. *)
Theorem rounded_score_with_unrounded_level (py : sum_impl) (now : datetime) :
  (forall contract_text, exists report,
     analyze_contract_rules py _load_risk_rules now contract_text = Ok report /\
     let normalized := normalized_score py _load_risk_rules contract_text in
     RuleReport.overall_risk_score report = py_round2 normalized /\
     RuleReport.risk_level report = level_of normalized) /\
  (exists report,
     analyze_contract_rules py _load_risk_rules now two_clause_text = Ok report /\
     let rules_missing := missing _load_risk_rules (PyStr.lower two_clause_text) in
     let normalized := normalized_score py _load_risk_rules two_clause_text in
     map fst rules_missing =
       ["missing_termination"; "missing_confidentiality"; "vague_payment_terms";
        "missing_late_fees"; "missing_ip_clauses"; "missing_force_majeure";
        "missing_amendment_clause"; "missing_severability"] /\
     py_round2 (sum_naive 0%float (weights rules_missing)) = 3.7%float /\
     py_round2 (max_possible_risk py _load_risk_rules) = 5.3%float /\
     (0.695 <=? normalized)%float = true /\
     (normalized <? 0.7)%float = true /\
     RuleReport.overall_risk_score report = 0.7%float /\
     RuleReport.risk_level report = "MEDIUM").
Proof.
  split.
  - intros contract_text.
    rewrite (analyze_contract_rules_ok _ _ _ _ catalog_well_formed).
    eexists. split; [reflexivity|]. split; reflexivity.
  - rewrite (analyze_contract_rules_ok _ _ _ _ catalog_well_formed).
    eexists. split; [reflexivity|].
    cbn [RuleReport.overall_risk_score RuleReport.risk_level].
    destruct py; repeat split; vm_compute; reflexivity.
Qed.

(** *** Two runs on one text *)

(** C2, as amended. Two runs of the rule engine on one text end alike: both
    raise the same exception, or both return reports that agree on every
    field but [analysis_timestamp], which is the clock reading of its run. *)
Theorem rule_report_determined_up_to_timestamp (py : sum_impl) (risk_rules : Catalog)
    (now1 now2 : datetime) (contract_text : string) :
  match analyze_contract_rules py risk_rules now1 contract_text,
        analyze_contract_rules py risk_rules now2 contract_text with
  | Ok r1, Ok r2 =>
      RuleReport.success r1 = RuleReport.success r2 /\
      RuleReport.analysis_type r1 = RuleReport.analysis_type r2 /\
      RuleReport.overall_risk_score r1 = RuleReport.overall_risk_score r2 /\
      RuleReport.risk_level r1 = RuleReport.risk_level r2 /\
      RuleReport.total_risks r1 = RuleReport.total_risks r2 /\
      RuleReport.risks_by_severity r1 = RuleReport.risks_by_severity r2 /\
      RuleReport.risks_identified r1 = RuleReport.risks_identified r2 /\
      RuleReport.contract_length r1 = RuleReport.contract_length r2 /\
      RuleReport.analysis_timestamp r1 = isoformat now1 /\
      RuleReport.analysis_timestamp r2 = isoformat now2
  | Raise msg1, Raise msg2 => msg1 = msg2
  | _, _ => False
  end.
Proof.
  unfold analyze_contract_rules.
  destruct (scan_rules risk_rules _ _) as [st|msg]; cbn; [|reflexivity].
  repeat split.
Qed.

(** C2 as stated fails: the reports of two runs on the empty text, one in
    the morning and one in the evening, differ. *)
Lemma two_runs_differ :
  analyze_contract_rules SumPlain _load_risk_rules morning "" <>
  analyze_contract_rules SumPlain _load_risk_rules evening "".
Proof.
  intros H.
  assert (Hts : forall now,
            (r ← analyze_contract_rules SumPlain _load_risk_rules now "";
             mret (RuleReport.analysis_timestamp r)) = Ok (isoformat now)).
  { intros now. rewrite (analyze_contract_rules_ok _ _ _ _ catalog_well_formed).
    reflexivity. }
  pose proof (Hts morning) as Hm. rewrite H, (Hts evening) in Hm.
  vm_compute in Hm. discriminate.
Qed.

(** ** Properties of the rate limiter *)

Module RateLimiterFacts.
Import RateLimiter.

Lemma purge_set l ts now :
  purge (set_timestamps l ts) now =
    filter (fun x => now - x < window_duration l) ts.
Proof. reflexivity. Qed.

(** After the wait of step 3 the head of the kept timestamps is purged. *)
Lemma purge_after_wait l kept now :
  kept <> [] ->
  let wait := Z.max 0 (window_duration l - (now - hd now kept)) in
  (length (purge (set_timestamps l kept) (now + wait)) < length kept)%nat.
Proof.
  destruct kept as [|oldest rest]; [congruence|]. intros _ wait.
  rewrite purge_set, filter_cons. cbn [hd] in wait.
  rewrite decide_False by (unfold wait; lia).
  cbn [length]. pose proof (length_filter (fun x => now + wait - x < window_duration l) rest).
  lia.
Qed.

(** Enough fuel gives the result: the call returns, not before it was made,
    with the instant of return recorded last and no more timestamps than
    the ceiling, each within the window. *)
Lemma acquire_loop_S fuel l now :
  acquire_loop (S fuel) l now =
    let kept := purge l now in
    if Z.of_nat (length kept) <? max_requests_per_window l
    then Some (set_timestamps l (kept ++ [now])%list, now)
    else acquire_loop fuel (set_timestamps l kept)
           (now + Z.max 0 (window_duration l - (now - hd now kept))).
Proof. reflexivity. Qed.

Lemma purge_within l now :
  Forall (fun ts => now - ts < window_duration l) (purge l now).
Proof.
  apply Forall_forall. intros ts Hts.
  now apply list_elem_of_filter in Hts as [? _].
Qed.

Lemma acquire_loop_total fuel : forall l now,
  0 < max_requests_per_window l ->
  (length (purge l now) <= fuel)%nat ->
  exists kept admitted,
    acquire_loop (S fuel) l now =
      Some (set_timestamps l (kept ++ [admitted])%list, admitted) /\
    now <= admitted /\
    Z.of_nat (length kept) < max_requests_per_window l /\
    Forall (fun ts => admitted - ts < window_duration l) kept.
Proof.
  induction fuel as [|fuel IH]; intros l now Hmax Hlen;
    rewrite acquire_loop_S; cbv zeta;
    destruct (Z.ltb_spec (Z.of_nat (length (purge l now)))
                (max_requests_per_window l)) as [Hlt|Hge];
    try (exists (purge l now), now;
         repeat split; [lia|lia|apply purge_within]).
  - lia.
  - set (kept := purge l now) in *.
    set (wait := Z.max 0 (window_duration l - (now - hd now kept))).
    assert (Hne : kept <> []) by (destruct kept; cbn in *; [lia|congruence]).
    pose proof (purge_after_wait l kept now Hne) as Hdecr. cbv zeta in Hdecr.
    fold wait in Hdecr.
    destruct (IH (set_timestamps l kept) (now + wait) Hmax) as
      (kept' & admitted & Hrun & Hle & Hcount & Hall); [lia|].
    exists kept', admitted. rewrite Hrun. repeat split; try assumption.
    unfold wait in Hle. lia.
Qed.

Lemma acquire_total l now :
  0 < max_requests_per_window l ->
  exists kept admitted,
    acquire l now = Some (set_timestamps l (kept ++ [admitted])%list, admitted) /\
    now <= admitted /\
    Z.of_nat (length kept) < max_requests_per_window l /\
    Forall (fun ts => admitted - ts < window_duration l) kept.
Proof.
  intros Hmax. apply acquire_loop_total; [exact Hmax|].
  apply length_filter.
Qed.

Lemma in_window_length l at_ :
  (length (in_window l at_) <= length (timestamps l))%nat.
Proof. apply length_filter. Qed.

(** Every call of a sequential caller is admitted, and the state it leaves
    holds no more timestamps than the ceiling. *)
Lemma serve_total calls : forall l clock,
  0 < max_requests_per_window l ->
  Z.of_nat (length (timestamps l)) <= max_requests_per_window l ->
  exists admitted l',
    serve l clock calls = Some (admitted, l') /\
    length admitted = length calls /\
    max_requests_per_window l' = max_requests_per_window l /\
    window_duration l' = window_duration l /\
    Z.of_nat (length (timestamps l')) <= max_requests_per_window l.
Proof.
  induction calls as [|asked calls IH]; intros l clock Hmax Hlen; cbn [serve].
  - exists [], l. auto.
  - destruct (acquire_total l (Z.max clock asked) Hmax) as
      (kept & t' & -> & _ & Hcount & _).
    destruct (IH (set_timestamps l (kept ++ [t'])%list) t') as
      (rest & l' & -> & Hn & Hm & Hw & Hlen'); cbn; try assumption.
    + rewrite length_app. cbn. lia.
    + exists (t' :: rest), l'. cbn. repeat split; auto.
Qed.

End RateLimiterFacts.

(** *** The ceiling over the instants of admission *)

Section Ceiling.

Variable max_requests : Z.

(** [within now ts]: at [now] the timestamp [ts] still counts. *)
Variable within : Z -> Z -> Prop.
Context `{!forall now ts, Decision (within now ts)}.

(** Each call was admitted with fewer than [max_requests] of the calls
    admitted before it still counting. *)
Fixpoint respects (before admitted : list Z) : Prop :=
  match admitted with
  | [] => True
  | a :: rest =>
      Z.of_nat (length (filter (within a) before)) < max_requests /\
      respects (before ++ [a])%list rest
  end.

Lemma filter_length_impl (P Q : Z -> Prop) `{!forall x, Decision (P x)}
    `{!forall x, Decision (Q x)} (l : list Z) :
  (forall x, P x -> Q x) -> (length (filter P l) <= length (filter Q l))%nat.
Proof.
  intros Himp. rewrite <- (list_filter_filter_l P Q l Himp). apply length_filter.
Qed.

(** A span of time any two instants of which count for each other holds no
    more than [max_requests] admissions. *)
Lemma respects_span (inside : Z -> Prop) `{!forall a, Decision (inside a)} admitted :
  (forall a b, inside a -> inside b -> within a b) ->
  forall before,
    respects before admitted ->
    Z.of_nat (length (filter inside before)) <= max_requests ->
    Z.of_nat (length (filter inside (before ++ admitted)%list)) <= max_requests.
Proof.
  intros Hspan. induction admitted as [|a rest IH]; intros before Hresp Hbefore.
  - now rewrite app_nil_r.
  - destruct Hresp as [Ha Hrest].
    replace (before ++ a :: rest)%list with ((before ++ [a]) ++ rest)%list
      by now rewrite <- app_assoc.
    apply IH; [exact Hrest|].
    rewrite filter_app, length_app, filter_cons, filter_nil.
    destruct (decide (inside a)) as [Hin|Hout]; cbn [length]; [|lia].
    pose proof (filter_length_impl inside (within a) before
                  (fun b Hb => Hspan a b Hin Hb)).
    lia.
Qed.

End Ceiling.

Module RateLimiterAsWordedFacts.
Import RateLimiter.

(** At [now] the timestamp [ts] is not older than [now - window]. *)
Definition not_older (window now ts : Z) : Prop := now - window <= ts.

#[local] Instance not_older_dec window now ts : Decision (not_older window now ts) :=
  Z.le_dec (now - window) ts.






End RateLimiterAsWordedFacts.


Module RateLimiterCeiling.
Import RateLimiter.

(** At [now] less than a full window has passed since [ts]. *)
Definition still_counts (window now ts : Z) : Prop := now - ts < window.

#[local] Instance still_counts_dec window now ts : Decision (still_counts window now ts) :=
  Z.lt_dec (now - ts) window.

(** A call of the limiter the components use is admitted with fewer than the
    ceiling of the earlier admissions less than one window before it. *)
Lemma acquire_loop_respects fuel : forall l now history since l' a,
  0 < window_duration l ->
  timestamps l = filter (still_counts (window_duration l) since) history ->
  since <= now ->
  acquire_loop fuel l now = Some (l', a) ->
  now <= a /\
  max_requests_per_window l' = max_requests_per_window l /\
  window_duration l' = window_duration l /\
  Z.of_nat (length (filter (still_counts (window_duration l) a) history)) <
    max_requests_per_window l /\
  timestamps l' = filter (still_counts (window_duration l) a) (history ++ [a])%list.
Proof.
  induction fuel as [|fuel IH]; intros l now history since l' a Hwin Hts Hsince;
    [discriminate|].
  rewrite RateLimiterFacts.acquire_loop_S. cbv zeta.
  assert (Hkept : purge l now = filter (still_counts (window_duration l) now) history).
  { unfold purge. rewrite Hts.
    apply (list_filter_filter_l (still_counts (window_duration l) now)).
    unfold still_counts. intros ts. lia. }
  rewrite Hkept.
  destruct (Z.ltb_spec (Z.of_nat (length (filter (still_counts (window_duration l) now) history)))
              (max_requests_per_window l)) as [Hlt|Hge].
  - intros [= <- <-]. cbn. repeat split; try lia.
    rewrite filter_app, filter_cons, filter_nil.
    now rewrite decide_True by (unfold still_counts; lia).
  - intros Hrun.
    apply (IH _ _ history now) in Hrun; [|exact Hwin|reflexivity|lia].
    cbn [max_requests_per_window window_duration set_timestamps] in Hrun.
    destruct Hrun as (Hle & Hmax & Hw & Hcount & Hts').
    repeat split; try assumption. lia.
Qed.

Lemma serve_respects calls : forall l clock history since admitted l',
  0 < window_duration l ->
  timestamps l = filter (still_counts (window_duration l) since) history ->
  since <= clock ->
  serve l clock calls = Some (admitted, l') ->
  respects (max_requests_per_window l) (still_counts (window_duration l)) history admitted.
Proof.
  induction calls as [|asked calls IH]; intros l clock history since admitted l'
    Hwin Hts Hsince; cbn [serve].
  - intros [= <- <-]. exact I.
  - unfold acquire.
    destruct (acquire_loop _ l (Z.max clock asked)) as [[l1 a]|] eqn:Hrun; [|discriminate].
    apply (acquire_loop_respects _ _ _ history since) in Hrun; [|exact Hwin|exact Hts|lia].
    destruct Hrun as (Hle & Hmax & Hw & Hcount & Hts1).
    destruct (serve l1 a calls) as [[rest l2]|] eqn:Hrest; [|discriminate].
    intros [= <- <-]. cbn [respects]. split; [exact Hcount|].
    rewrite <- Hmax, <- Hw.
    apply (IH l1 a (history ++ [a])%list a rest l2); try lia; try assumption.
    now rewrite Hw.
Qed.

End RateLimiterCeiling.

(** The limiter the components are modelled with, for which a timestamp has
    expired once a full window has passed.  A limiter that construction
    accepts admits every call of a sequential caller, and of the instants of
    admission no more than the ceiling lie in any span of one window.  With a
    ceiling of 2 and a window of 60, of three calls at time 0 the first two are
    admitted at 0 and the third at 60, after which a call at 61 is admitted
    at 61. *)
Lemma limiter_ceiling (max_requests window : Z) (l0 : RateLimiter.t) (calls : list Z) :
  RateLimiter.new max_requests window = Ok l0 ->
  (exists admitted l,
     RateLimiter.serve l0 0 calls = Some (admitted, l) /\
     length admitted = length calls /\
     Z.of_nat (length (RateLimiter.timestamps l)) <= max_requests /\
     forall instant,
       Z.of_nat (length (filter (fun a => instant - window < a <= instant) admitted))
         <= max_requests) /\
  (exists l2 l,
     RateLimiter.new 2 60 = Ok l2 /\
     RateLimiter.serve l2 0 [0; 0; 0; 61] = Some ([0; 0; 60; 61], l) /\
     RateLimiter.timestamps l = [60; 61]).
Proof.
  intros Hnew. unfold RateLimiter.new in Hnew.
  destruct (0 <? max_requests) eqn:Hmax; [|discriminate].
  destruct (0 <? window) eqn:Hwin; [|discriminate].
  cbn in Hnew. injection Hnew as <-.
  apply Z.ltb_lt in Hmax. apply Z.ltb_lt in Hwin.
  split.
  - destruct (RateLimiterFacts.serve_total calls
                {| RateLimiter.max_requests_per_window := max_requests;
                   RateLimiter.window_duration := window;
                   RateLimiter.timestamps := [] |} 0) as
      (admitted & l & Hrun & Hn & _ & _ & Hlen); cbn; [lia|lia|].
    exists admitted, l. cbn in Hlen. repeat split; try assumption.
    intros instant. pose proof Hrun as Hresp.
    apply (RateLimiterCeiling.serve_respects calls _ 0 [] 0) in Hresp;
      [|cbn; lia|reflexivity|lia].
    cbn [RateLimiter.max_requests_per_window RateLimiter.window_duration] in Hresp.
    apply (respects_span max_requests (RateLimiterCeiling.still_counts window)
             (fun a => instant - window < a <= instant) admitted
             ltac:(unfold RateLimiterCeiling.still_counts; intros a b Ha Hb; lia)
             [] Hresp).
    cbn. lia.
  - eexists _, _. split; [reflexivity|]. split; vm_compute; reflexivity.
Qed.

(** The scenario on that limiter, as an instance. *)
Lemma limiter_ceiling_witness :
  exists l0,
    RateLimiter.new 2 60 = Ok l0 /\
    exists admitted l,
      RateLimiter.serve l0 0 [0; 0; 0; 61] = Some (admitted, l) /\
      length admitted = 4%nat /\
      Z.of_nat (length (RateLimiter.timestamps l)) <= 2.
Proof.
  eexists. split; [reflexivity|].
  destruct (limiter_ceiling 2 60 _ [0; 0; 0; 61] eq_refl) as [(admitted & l & Hrun & Hn & Hlen & _) _].
  exists admitted, l. auto.
Defined.

(** ** Properties of the combiner *)

(** C7, as the code has it. The immediate actions are the recommendations
    of the HIGH findings and the medium-term improvements those of the MEDIUM
    findings, both in finding order; the long-term considerations are [None],
    not a list: on the empty text, whose report has four LOW findings, the
    combined report carries no long-term list at all. *)
Theorem recommendation_tiers (now : datetime) (ai_analysis : option string)
    (rule_analysis : RuleReport.t) (contract_text : string) :
  let recs :=
    CombinedReport.recommendations
      (_combine_analyses now ai_analysis rule_analysis contract_text) in
  let risks := RuleReport.risks_identified rule_analysis in
  Recommendations.immediate_actions recs =
    map Risk.recommendation (filter (fun r => Risk.severity r = "HIGH") risks) /\
  Recommendations.medium_term_improvements recs =
    map Risk.recommendation (filter (fun r => Risk.severity r = "MEDIUM") risks) /\
  Recommendations.long_term_considerations recs = None /\
  Recommendations.long_term_considerations recs <> Some [] /\
  exists report,
    analyze_contract_rules SumPlain _load_risk_rules now "" = Ok report /\
    length (bucket (RuleReport.risks_by_severity report) "LOW") = 4%nat /\
    Recommendations.long_term_considerations
      (CombinedReport.recommendations
         (_combine_analyses now ai_analysis report "")) = None.
Proof.
  cbv zeta. repeat split; try discriminate.
  rewrite (analyze_contract_rules_ok _ _ _ _ catalog_well_formed).
  eexists. split; [reflexivity|]. split; [vm_compute|]; reflexivity.
Qed.

(** ** Properties of the two caller paths *)

(** What a path does around its outbound call: its limiter, and no other,
    records the instant of admission, and the call is sent at that instant. *)
Definition admitted_then_sent (limiter : nat) (prompt : string) (w w' : World) : Prop :=
  exists l kept admitted,
    limiters w !! limiter = Some l /\
    limiters w' =
      <[limiter := RateLimiter.set_timestamps l (kept ++ [admitted])%list]> (limiters w) /\
    (forall other, other <> limiter -> limiters w' !! other = limiters w !! other) /\
    sent w' = (admitted, prompt) :: sent w /\
    wall w <= admitted /\
    Z.of_nat (length kept) < RateLimiter.max_requests_per_window l.

Lemma wait_if_needed_admits w limiter l :
  limiters w !! limiter = Some l ->
  0 < RateLimiter.max_requests_per_window l ->
  exists kept admitted,
    wait_if_needed limiter w =
      (Ok tt,
       set_wall
         (set_limiters w
            (<[limiter := RateLimiter.set_timestamps l (kept ++ [admitted])%list]>
               (limiters w)))
         admitted) /\
    wall w <= admitted /\
    Z.of_nat (length kept) < RateLimiter.max_requests_per_window l.
Proof.
  intros Hl Hmax. unfold wait_if_needed. rewrite Hl.
  destruct (RateLimiterFacts.acquire_total l (wall w) Hmax) as
    (kept & admitted & -> & Hle & Hcount & _).
  exists kept, admitted. auto.
Qed.

Lemma RateLimiter_new_15 w :
  RateLimiter_new 15 w =
    (Ok (length (limiters w)),
     set_limiters w
       (limiters w ++
        [{| RateLimiter.max_requests_per_window := 15;
            RateLimiter.window_duration := 60;
            RateLimiter.timestamps := [] |}])%list).
Proof. reflexivity. Qed.

Section Paths.

Variable py : sum_impl.
Variable service : string -> Reply.
Variable calendar : Z -> datetime.
Variable getenv_api_key : option string.
Variables Validation Metadata : Type.
Variable validate_contract_params : string -> gmap string string -> Validation.
Variable has_error : Validation -> bool.
Variable extract_contract_metadata : string -> Result Metadata.
Variable metadata_word_count : Metadata -> Result Z.
Variable save_contract : string -> string -> list string -> Result string.
Variable env_max_tokens : Z.
Variable env_temperature : float.

Local Abbreviation analyze := (analyze_contract_comprehensive py service calendar).
Local Abbreviation generate :=
  (_generate_contract service calendar Validation Metadata validate_contract_params
     has_error extract_contract_metadata metadata_word_count save_contract).
Local Abbreviation init :=
  (init_components getenv_api_key env_max_tokens env_temperature).

Lemma analysis_path self contract_text w l :
  limiters w !! ContractRiskAnalyzer.rate_limiter self = Some l ->
  0 < RateLimiter.max_requests_per_window l ->
  exists result w',
    analyze self contract_text w = (Ok result, w') /\
    admitted_then_sent (ContractRiskAnalyzer.rate_limiter self)
      (_create_analysis_prompt contract_text) w w'.
Proof.
  intros Hl Hmax.
  destruct (wait_if_needed_admits w _ l Hl Hmax) as (kept & admitted & Hwait & Hle & Hcount).
  unfold analyze_contract_comprehensive, mbind, M_bind. rewrite Hwait.
  unfold try_except, track_request, generate_content, datetime_now, lift, mret, M_ret.
  cbn [wall sent limiters tracked set_wall set_limiters set_sent set_tracked].
  destruct (outcome (service _)) as [text|msg];
    [destruct (analyze_contract_rules _ _ _ _) as [report|msg]|];
    (eexists _, _; split; [reflexivity|]; exists l, kept, admitted;
     cbn [wall sent limiters tracked]; repeat split; try assumption;
     intros other Hne; now apply list_lookup_insert_ne).
Qed.

Lemma generation_path self contract_type prompt params w l :
  limiters w !! ContractGenerator.rate_limiter self = Some l ->
  0 < RateLimiter.max_requests_per_window l ->
  exists result w',
    generate self contract_type prompt params w = (Ok result, w') /\
    match result with
    | Rejected _ => w' = w
    | _ => admitted_then_sent (ContractGenerator.rate_limiter self) prompt w w'
    end.
Proof.
  intros Hl Hmax. unfold _generate_contract.
  destruct (has_error _); [eexists _, _; split; reflexivity|].
  destruct (wait_if_needed_admits w _ l Hl Hmax) as (kept & admitted & Hwait & Hle & Hcount).
  unfold mbind, M_bind. rewrite Hwait.
  unfold try_except, track_request, generate_content, time_time, datetime_now,
    lift, mret, M_ret.
  cbn [wall sent limiters tracked set_wall set_limiters set_sent set_tracked].
  destruct (outcome (service _)) as [text|msg];
    [destruct (extract_contract_metadata _) as [metadata|msg];
       [destruct (save_contract _ _ _) as [file_path|msg];
          [destruct (metadata_word_count _) as [n|msg]|]|]|];
    (eexists _, _; split; [reflexivity|]; exists l, kept, admitted;
     cbn [wall sent limiters tracked]; repeat split; try assumption;
     intros other Hne; now apply list_lookup_insert_ne).
Qed.

(** With a key in the environment the start of the application builds two
    limiter objects, one for each component. *)
Lemma init_components_two_limiters key w :
  truthy getenv_api_key = Some key ->
  exists contract_generator risk_analyzer w',
    init w = (Ok (contract_generator, risk_analyzer), w') /\
    ContractGenerator.rate_limiter contract_generator = length (limiters w) /\
    ContractRiskAnalyzer.rate_limiter risk_analyzer = S (length (limiters w)) /\
    limiters w' =
      (limiters w ++
       [{| RateLimiter.max_requests_per_window := 15;
           RateLimiter.window_duration := 60;
           RateLimiter.timestamps := [] |};
        {| RateLimiter.max_requests_per_window := 15;
           RateLimiter.window_duration := 60;
           RateLimiter.timestamps := [] |}])%list /\
    wall w' = wall w /\ sent w' = sent w.
Proof.
  intros Hkey.
  unfold init_components, ContractGenerator_init, ContractRiskAnalyzer_init,
    resolve_api_key, lift, mbind, M_bind, mret, M_ret.
  cbn [truthy]. rewrite Hkey, !RateLimiter_new_15.
  cbn [limiters set_limiters]. eexists _, _, _. split; [reflexivity|].
  cbn. rewrite length_app, <- app_assoc. cbn. repeat split; lia.
Qed.

(** C8, as amended. The two components are built with a limiter object
    each; on either path the outbound call comes right after the path's own
    limiter has admitted it, and the limiter of the other path is left as it
    was, so the quota is counted per path. *)
Theorem each_path_waits_on_its_own_limiter :
  (forall key w,
     truthy getenv_api_key = Some key ->
     exists contract_generator risk_analyzer w',
       init w = (Ok (contract_generator, risk_analyzer), w') /\
       ContractGenerator.rate_limiter contract_generator <>
         ContractRiskAnalyzer.rate_limiter risk_analyzer /\
       (exists l, limiters w' !! ContractGenerator.rate_limiter contract_generator = Some l /\
                  RateLimiter.max_requests_per_window l = 15 /\
                  RateLimiter.timestamps l = []) /\
       (exists l, limiters w' !! ContractRiskAnalyzer.rate_limiter risk_analyzer = Some l /\
                  RateLimiter.max_requests_per_window l = 15 /\
                  RateLimiter.timestamps l = [])) /\
  (forall self contract_type prompt params w l,
     limiters w !! ContractGenerator.rate_limiter self = Some l ->
     0 < RateLimiter.max_requests_per_window l ->
     exists result w',
       generate self contract_type prompt params w = (Ok result, w') /\
       match result with
       | Rejected _ => w' = w
       | _ => admitted_then_sent (ContractGenerator.rate_limiter self) prompt w w'
       end) /\
  (forall self contract_text w l,
     limiters w !! ContractRiskAnalyzer.rate_limiter self = Some l ->
     0 < RateLimiter.max_requests_per_window l ->
     exists result w',
       analyze self contract_text w = (Ok result, w') /\
       admitted_then_sent (ContractRiskAnalyzer.rate_limiter self)
         (_create_analysis_prompt contract_text) w w').
Proof.
  split; [|split].
  - intros key w Hkey.
    destruct (init_components_two_limiters key w Hkey) as
      (g & a & w' & Hinit & Hg & Ha & Hls & _).
    exists g, a, w'. rewrite Hg, Ha, Hls. repeat split; [exact Hinit|lia| |].
    + eexists. rewrite lookup_app_r by lia. rewrite Nat.sub_diag.
      split; [reflexivity|]. split; reflexivity.
    + eexists. rewrite lookup_app_r by lia.
      replace (S (length (limiters w)) - length (limiters w))%nat with 1%nat by lia.
      split; [reflexivity|]. split; reflexivity.
  - apply generation_path.
  - apply analysis_path.
Qed.

(** When the service raises, the analysis returns the dict of its [except]
    branch. *)
Lemma analysis_of_failed_call self contract_text w l msg :
  limiters w !! ContractRiskAnalyzer.rate_limiter self = Some l ->
  0 < RateLimiter.max_requests_per_window l ->
  outcome (service (_create_analysis_prompt contract_text)) = Raise msg ->
  exists w',
    analyze self contract_text w =
      (Ok (AnalysisFailed
             {| FailureReport.success := false;
                FailureReport.error := "Contract analysis failed: " ++ msg;
                FailureReport.timestamp := isoformat (calendar (wall w')) |}), w').
Proof.
  intros Hl Hmax Hfail.
  destruct (wait_if_needed_admits w _ l Hl Hmax) as (kept & admitted & Hwait & _).
  unfold analyze_contract_comprehensive, mbind, M_bind. rewrite Hwait.
  unfold try_except, track_request, generate_content, datetime_now, lift, mret, M_ret.
  rewrite Hfail. eexists. reflexivity.
Qed.

(** When the service answers, the analysis combines the stripped answer
    with the rule report of the text. *)
Lemma analysis_of_answered_call self contract_text w l text :
  limiters w !! ContractRiskAnalyzer.rate_limiter self = Some l ->
  0 < RateLimiter.max_requests_per_window l ->
  well_formed (ContractRiskAnalyzer.risk_rules self) = true ->
  outcome (service (_create_analysis_prompt contract_text)) = Ok text ->
  exists rule_report w',
    analyze_contract_rules py (ContractRiskAnalyzer.risk_rules self)
      (calendar (wall w')) contract_text = Ok rule_report /\
    analyze self contract_text w =
      (Ok (Analyzed (_combine_analyses (calendar (wall w')) (Some (PyStr.strip text))
                       rule_report contract_text)), w').
Proof.
  intros Hl Hmax Hwf Hok.
  destruct (wait_if_needed_admits w _ l Hl Hmax) as (kept & admitted & Hwait & _).
  unfold analyze_contract_comprehensive, mbind, M_bind. rewrite Hwait.
  unfold try_except, track_request, generate_content, datetime_now, lift, mret, M_ret.
  rewrite Hok. cbn [wall set_wall set_sent set_tracked set_limiters].
  rewrite (analyze_contract_rules_ok _ _ _ _ Hwf).
  eexists _, (set_wall _ _). split; [|cbn [wall set_wall]; reflexivity].
  apply (analyze_contract_rules_ok _ _ _ _ Hwf).
Qed.

(** C1, as amended. The combiner called without a text of the service
    returns a report with the whole rule-based section and [None] as the
    detailed analysis.  The analysis itself, when the service raises, returns
    the failure dict of its [except] branch, which has no rule-based section;
    the combiner is reached only with the text of an answer.  The rule-based
    analysis of the catalog never raises. *)
Theorem degraded_mode :
  (forall now rule_analysis contract_text,
     let report := _combine_analyses now None rule_analysis contract_text in
     let section := CombinedReport.rule_based_analysis report in
     let overall := CombinedReport.overall_risk_assessment report in
     CombinedReport.success report = true /\
     RuleBasedAnalysis.risks_identified section = RuleReport.risks_identified rule_analysis /\
     RuleBasedAnalysis.risks_by_severity section = RuleReport.risks_by_severity rule_analysis /\
     RuleBasedAnalysis.missing_clauses section =
       Z.of_nat (length (RuleReport.risks_identified rule_analysis)) /\
     OverallRiskAssessment.risk_level overall = RuleReport.risk_level rule_analysis /\
     OverallRiskAssessment.risk_score overall = RuleReport.overall_risk_score rule_analysis /\
     OverallRiskAssessment.total_issues overall = RuleReport.total_risks rule_analysis /\
     AiAnalysis.detailed_analysis (CombinedReport.ai_analysis report) = None) /\
  (forall self contract_text w l msg,
     limiters w !! ContractRiskAnalyzer.rate_limiter self = Some l ->
     0 < RateLimiter.max_requests_per_window l ->
     outcome (service (_create_analysis_prompt contract_text)) = Raise msg ->
     exists w',
       analyze self contract_text w =
         (Ok (AnalysisFailed
                {| FailureReport.success := false;
                   FailureReport.error := "Contract analysis failed: " ++ msg;
                   FailureReport.timestamp := isoformat (calendar (wall w')) |}), w')) /\
  (forall self contract_text w l text,
     limiters w !! ContractRiskAnalyzer.rate_limiter self = Some l ->
     0 < RateLimiter.max_requests_per_window l ->
     well_formed (ContractRiskAnalyzer.risk_rules self) = true ->
     outcome (service (_create_analysis_prompt contract_text)) = Ok text ->
     exists rule_report w',
       analyze_contract_rules py (ContractRiskAnalyzer.risk_rules self)
         (calendar (wall w')) contract_text = Ok rule_report /\
       analyze self contract_text w =
         (Ok (Analyzed (_combine_analyses (calendar (wall w')) (Some (PyStr.strip text))
                          rule_report contract_text)), w')) /\
  (forall now contract_text,
     is_ok (analyze_contract_rules py _load_risk_rules now contract_text) = true).
Proof.
  split; [|split; [|split]].
  - intros now rule_analysis contract_text. cbv zeta. repeat split.
  - apply analysis_of_failed_call.
  - apply analysis_of_answered_call.
  - intros now contract_text.
    now rewrite (analyze_contract_rules_ok _ _ _ _ catalog_well_formed).
Qed.

End Paths.

(** *** A concrete run *)

(** A world at time 0 with no limiter yet, a calendar that stands still, two
    services (one answers at once, one times out) and helpers that accept
    every request. *)
Definition fresh_world : World :=
  {| wall := 0; limiters := []; sent := []; tracked := [] |}.

Definition still_calendar (t : Z) : datetime := morning.

Definition prompt_service (prompt : string) : Reply :=
  {| took := 0; outcome := Ok " This agreement is made between the parties. " |}.

Definition failing_service (prompt : string) : Reply :=
  {| took := 30; outcome := Raise "504 Deadline Exceeded" |}.

Definition accept_all (contract_type : string) (params : gmap string string) : unit := tt.

Definition no_error (validation_result : unit) : bool := false.

Definition count_words (contract_text : string) : Result Z :=
  Ok (Z.of_nat (length (PyStr.split contract_text))).

Definition word_count_of (metadata : Z) : Result Z := Ok metadata.

Definition save_nowhere (contract_text contract_type : string) (parties : list string)
  : Result string := Ok "generated_contracts/contract.txt".

(** A limiter as the two constructors build it. *)
Definition fifteen_a_minute : RateLimiter.t :=
  {| RateLimiter.max_requests_per_window := 15;
     RateLimiter.window_duration := 60;
     RateLimiter.timestamps := [] |}.

(** [n] runs of a computation, one after the other. *)
Fixpoint times {A} (n : nat) (m : M A) : M unit :=
  match n with
  | O => mret tt
  | S n' => _ ← m; times n' m
  end.

(** The application starts, then generates fifteen contracts and analyses
    fifteen texts without a pause. *)
Definition busy_minute : M (nat * nat) :=
  components ← init_components (Some "AIza-key") 2000 0.1%float;
  let contract_generator := components.1 in
  let risk_analyzer := components.2 in
  _ ← times 15
        (_generate_contract prompt_service still_calendar unit Z accept_all no_error
           count_words word_count_of save_nowhere contract_generator
           "NDA" "Draft a mutual NDA." ∅);
  _ ← times 15
        (analyze_contract_comprehensive SumPlain prompt_service still_calendar
           risk_analyzer "");
  mret (ContractGenerator.rate_limiter contract_generator,
        ContractRiskAnalyzer.rate_limiter risk_analyzer).

(** C8 as stated fails: the two paths hold different limiter objects, and
    thirty outbound calls leave at time 0, none of them made to wait; one
    limiter asked thirty times at time 0 admits fifteen calls at 0 and holds
    the other fifteen back until 60. *)
Lemma quota_is_counted_per_path :
  (exists generator_limiter analyzer_limiter w,
     busy_minute fresh_world = (Ok (generator_limiter, analyzer_limiter), w) /\
     generator_limiter <> analyzer_limiter /\
     length (sent w) = 30%nat /\
     Forall (fun call => call.1 = 0) (sent w) /\
     wall w = 0 /\
     (forall l, limiters w !! generator_limiter = Some l ->
                length (RateLimiter.timestamps l) = 15%nat) /\
     (forall l, limiters w !! analyzer_limiter = Some l ->
                length (RateLimiter.timestamps l) = 15%nat)) /\
  (exists l,
     RateLimiter.serve fifteen_a_minute 0 (replicate 30 0) =
       Some ((replicate 15 0 ++ replicate 15 60)%list, l)).
Proof.
  split.
  - eexists _, _, _. split; [vm_compute; reflexivity|].
    split; [discriminate|].
    split; [reflexivity|].
    split; [repeat constructor|].
    split; [reflexivity|].
    split; intros l [= <-]; reflexivity.
  - eexists. vm_compute. reflexivity.
Qed.

(** C1 as stated fails: when the call to the service times out, the analysis
    returns the failure dict, with no rule-based section in it, although the
    rule-based analysis of the same text succeeds. *)
Lemma service_failure_fails_the_analysis :
  exists risk_analyzer w0 failure w,
    ContractRiskAnalyzer_init None (Some "AIza-key") fresh_world = (Ok risk_analyzer, w0) /\
    analyze_contract_comprehensive SumPlain failing_service still_calendar
      risk_analyzer two_clause_text w0 = (Ok (AnalysisFailed failure), w) /\
    FailureReport.success failure = false /\
    FailureReport.error failure = "Contract analysis failed: 504 Deadline Exceeded" /\
    is_ok (analyze_contract_rules SumPlain (ContractRiskAnalyzer.risk_rules risk_analyzer)
             morning two_clause_text) = true.
Proof.
  eexists _, _, _, _. split; [reflexivity|].
  split; [vm_compute; reflexivity|].
  split; [reflexivity|]. split; [reflexivity|]. vm_compute. reflexivity.
Qed.

(** An analyzer whose limiter is the only object of the world. *)
Definition one_limiter_world : World :=
  {| wall := 0; limiters := [fifteen_a_minute]; sent := []; tracked := [] |}.

Definition lone_analyzer : ContractRiskAnalyzer.t :=
  {| ContractRiskAnalyzer.api_key := "AIza-key";
     ContractRiskAnalyzer.rate_limiter := 0;
     ContractRiskAnalyzer.risk_rules := _load_risk_rules |}.

(** The failure branch of C1 on a service that times out. *)
Lemma degraded_mode_witness :
  exists w',
    analyze_contract_comprehensive SumPlain failing_service still_calendar
      lone_analyzer two_clause_text one_limiter_world =
      (Ok (AnalysisFailed
             {| FailureReport.success := false;
                FailureReport.error :=
                  "Contract analysis failed: " ++ "504 Deadline Exceeded";
                FailureReport.timestamp := isoformat (still_calendar (wall w')) |}), w').
Proof.
  destruct (degraded_mode SumPlain failing_service still_calendar) as (_ & Hfailed & _).
  apply (Hfailed lone_analyzer two_clause_text one_limiter_world fifteen_a_minute
           "504 Deadline Exceeded"); reflexivity.
Defined.

(** The construction of C8 in the fresh world. *)
Lemma each_path_waits_on_its_own_limiter_witness :
  exists contract_generator risk_analyzer w',
    init_components (Some "AIza-key") 2000 0.1%float fresh_world =
      (Ok (contract_generator, risk_analyzer), w') /\
    ContractGenerator.rate_limiter contract_generator <>
      ContractRiskAnalyzer.rate_limiter risk_analyzer.
Proof.
  destruct (each_path_waits_on_its_own_limiter SumPlain prompt_service still_calendar
              (Some "AIza-key") unit Z accept_all no_error count_words word_count_of
              save_nowhere 2000 0.1%float) as (Hinit & _ & _).
  destruct (Hinit "AIza-key" fresh_world eq_refl) as (g & a & w' & Hrun & Hne & _).
  exists g, a, w'. split; assumption.
Defined.

(** * Further properties *)

(** ** Findings and the text *)

(** The pattern occurs in the text: it compiles, and some substring of the
    text is in its meaning. *)
Definition occurs (pattern text : string) : Prop :=
  exists r before found after,
    Re.compile pattern = Some r /\
    text = before ++ found ++ after /\
    ReFacts.matches r found.

Lemma hit_occurs text pattern : hit text pattern = true <-> occurs pattern text.
Proof.
  unfold hit, occurs. split.
  - destruct (Re.search pattern text) as [[|]|] eqn:Hs; try discriminate. intros _.
    unfold Re.search in Hs. destruct (Re.compile pattern) as [r|] eqn:Hc; [|discriminate].
    assert (Hs' : Re.search pattern text = Some true)
      by (unfold Re.search; now rewrite Hc).
    apply (ReFacts.search_matches pattern r text Hc) in Hs' as (b & f & a & ? & ?).
    exists r, b, f, a. auto.
  - intros (r & b & f & a & Hc & Heq & Hm).
    assert (Hs : Re.search pattern text = Some true)
      by (apply (ReFacts.search_matches pattern r text Hc); eauto).
    now rewrite Hs.
Qed.

Lemma absent_no_pattern text rule :
  absent text rule = true <->
  forall p, p ∈ Rule.patterns rule -> ~ occurs p text.
Proof.
  rewrite absent_found. split.
  - intros Hnil p Hp Hocc. apply hit_occurs in Hocc.
    assert (Hin : p ∈ filter (fun p => hit text p = true) (Rule.patterns rule))
      by (apply list_elem_of_filter; auto).
    rewrite Hnil in Hin. now apply elem_of_nil in Hin.
  - intros Hnone. destruct (filter _ _) as [|p found] eqn:Hf; [reflexivity|].
    assert (Hin : p ∈ filter (fun p => hit text p = true) (Rule.patterns rule))
      by (rewrite Hf; left).
    apply list_elem_of_filter in Hin as [Hhit Hp].
    exfalso. apply (Hnone p Hp). now apply hit_occurs.
Qed.

Lemma report_findings py risk_rules now contract_text report :
  well_formed risk_rules = true ->
  analyze_contract_rules py risk_rules now contract_text = Ok report ->
  RuleReport.risks_identified report =
    findings (missing risk_rules (PyStr.lower contract_text)).
Proof.
  intros Hwf. rewrite (analyze_contract_rules_ok _ _ _ _ Hwf). now intros [= <-].
Qed.

(** X1. A rule of a well-formed catalog is among the findings of a text
    exactly when none of its patterns occurs in the lowered text. *)
Theorem finding_iff_no_pattern_occurs py risk_rules now contract_text report :
  well_formed risk_rules = true ->
  analyze_contract_rules py risk_rules now contract_text = Ok report ->
  forall risk,
    risk ∈ RuleReport.risks_identified report <->
    exists risk_id rule,
      (risk_id, rule) ∈ risk_rules /\
      risk = make_risk risk_id rule /\
      forall p, p ∈ Rule.patterns rule -> ~ occurs p (PyStr.lower contract_text).
Proof.
  intros Hwf Hrun risk. rewrite (report_findings _ _ _ _ _ Hwf Hrun).
  unfold findings, missing. rewrite list_elem_of_fmap. split.
  - intros ([risk_id rule] & -> & Hin). apply list_elem_of_filter in Hin as [Habs Hin].
    exists risk_id, rule. repeat split; [exact Hin|]. now apply absent_no_pattern.
  - intros (risk_id & rule & Hin & -> & Hnone). exists (risk_id, rule).
    split; [reflexivity|]. apply list_elem_of_filter. split; [|exact Hin].
    now apply absent_no_pattern.
Qed.

Lemma finding_iff_no_pattern_occurs_witness :
  exists report,
    analyze_contract_rules SumPlain _load_risk_rules morning two_clause_text = Ok report /\
    forall risk,
      risk ∈ RuleReport.risks_identified report <->
      exists risk_id rule,
        (risk_id, rule) ∈ _load_risk_rules /\
        risk = make_risk risk_id rule /\
        forall p, p ∈ Rule.patterns rule -> ~ occurs p (PyStr.lower two_clause_text).
Proof.
  destruct (analyze_contract_rules SumPlain _load_risk_rules morning two_clause_text)
    as [report|msg] eqn:Hrun.
  - exists report. split; [reflexivity|].
    exact (finding_iff_no_pattern_occurs SumPlain _load_risk_rules morning
             two_clause_text report catalog_well_formed Hrun).
  - exfalso. rewrite (analyze_contract_rules_ok _ _ _ _ catalog_well_formed) in Hrun.
    discriminate.
Defined.

(** *** Case *)

Lemma lower_char_space c : PyStr.is_space (PyStr.lower_char c) = PyStr.is_space c.
Proof. destruct c as [[] [] [] [] [] [] [] []]; reflexivity. Qed.

Lemma split_from_lower s : forall cur cur',
  PyStr.is_empty cur = PyStr.is_empty cur' ->
  length (PyStr.split_from (PyStr.lower s) cur) = length (PyStr.split_from s cur').
Proof.
  induction s as [|c s IH]; intros cur cur' Hcur; cbn [PyStr.lower PyStr.split_from].
  - rewrite Hcur. now destruct (PyStr.is_empty cur').
  - rewrite lower_char_space, Hcur.
    destruct (PyStr.is_space c).
    + destruct (PyStr.is_empty cur'); cbn [length]; [|f_equal]; now apply IH.
    + apply IH. now destruct cur, cur'.
Qed.

Lemma split_length_lower s :
  length (PyStr.split (PyStr.lower s)) = length (PyStr.split s).
Proof. now apply split_from_lower. Qed.

Lemma lower_char_idem c : PyStr.lower_char (PyStr.lower_char c) = PyStr.lower_char c.
Proof. destruct c as [[] [] [] [] [] [] [] []]; reflexivity. Qed.

Lemma lower_idem s : PyStr.lower (PyStr.lower s) = PyStr.lower s.
Proof.
  induction s as [|c s IH]; cbn [PyStr.lower]; [reflexivity|].
  now rewrite lower_char_idem, IH.
Qed.

(** X2. The rule engine ignores case: two texts with the same lowering get
    the same report, so a text and its lowering do. *)
Theorem analysis_ignores_case py risk_rules now text1 text2 :
  PyStr.lower text1 = PyStr.lower text2 ->
  analyze_contract_rules py risk_rules now text1 =
  analyze_contract_rules py risk_rules now text2.
Proof.
  intros Hlower. unfold analyze_contract_rules. rewrite Hlower.
  rewrite <- (split_length_lower text1), <- (split_length_lower text2), Hlower.
  reflexivity.
Qed.

Lemma analysis_ignores_case_witness :
  analyze_contract_rules SumPlain _load_risk_rules morning "LIABILITY Limit, Governed BY" =
  analyze_contract_rules SumPlain _load_risk_rules morning "liability limit, governed by".
Proof. apply analysis_ignores_case. reflexivity. Defined.

(** *** More text *)

Lemma lower_app s1 s2 : PyStr.lower (s1 ++ s2) = PyStr.lower s1 ++ PyStr.lower s2.
Proof.
  induction s1 as [|c s1 IH]; [reflexivity|].
  rewrite !ReFacts.append_cons. cbn [PyStr.lower]. now rewrite ReFacts.append_cons, IH.
Qed.

Lemma append_assoc (s1 s2 s3 : string) : (s1 ++ s2) ++ s3 = s1 ++ (s2 ++ s3).
Proof.
  induction s1 as [|c s1 IH]; [reflexivity|]. now rewrite !ReFacts.append_cons, IH.
Qed.

(** A pattern that occurs in a text occurs in every text around it. *)
Lemma occurs_around pattern before text after :
  occurs pattern text -> occurs pattern (before ++ text ++ after).
Proof.
  intros (r & b & found & a & Hc & -> & Hm).
  exists r, (before ++ b), found, (a ++ after). repeat split; [exact Hc| |exact Hm].
  now rewrite !append_assoc.
Qed.

Lemma filter_sublist_weaker {A} (P Q : A -> Prop) `{!∀ x, Decision (P x)}
    `{!∀ x, Decision (Q x)} (l : list A) :
  (forall x, P x -> Q x) -> sublist (filter P l) (filter Q l).
Proof.
  intros HPQ. induction l as [|x l IH]; [constructor|].
  rewrite !filter_cons. destruct (decide (P x)) as [HP|HP].
  - rewrite decide_True by auto. now apply sublist_skip.
  - destruct (decide (Q x)); [now apply sublist_cons|exact IH].
Qed.

Lemma absent_around before text after rule :
  absent (PyStr.lower (before ++ text ++ after)) rule = true ->
  absent (PyStr.lower text) rule = true.
Proof.
  rewrite !absent_no_pattern, !lower_app. intros Hnone p Hp Hocc.
  apply (Hnone p Hp). now apply occurs_around.
Qed.

Lemma missing_around risk_rules before text after :
  sublist (missing risk_rules (PyStr.lower (before ++ text ++ after)))
          (missing risk_rules (PyStr.lower text)).
Proof.
  apply filter_sublist_weaker. intros [risk_id rule]. apply absent_around.
Qed.

Lemma findings_mono (a b : Catalog) : sublist a b -> sublist (findings a) (findings b).
Proof.
  induction 1 as [|x a b _ IH|x a b _ IH]; cbn; [constructor| |].
  - now apply sublist_skip.
  - now apply sublist_cons.
Qed.

(** X3. Text added before or after a contract never adds a finding: the
    findings of the longer text are among those of the shorter one, in the
    same order, and are no more. *)
Theorem more_text_no_new_findings py risk_rules now before text after shorter longer :
  well_formed risk_rules = true ->
  analyze_contract_rules py risk_rules now text = Ok shorter ->
  analyze_contract_rules py risk_rules now (before ++ text ++ after) = Ok longer ->
  sublist (RuleReport.risks_identified longer) (RuleReport.risks_identified shorter) /\
  RuleReport.total_risks longer <= RuleReport.total_risks shorter.
Proof.
  intros Hwf. rewrite !(analyze_contract_rules_ok _ _ _ _ Hwf).
  intros [= <-] [= <-]. cbn [RuleReport.risks_identified RuleReport.total_risks].
  pose proof (findings_mono _ _ (missing_around risk_rules before text after)) as Hsub.
  split; [exact Hsub|]. apply sublist_length in Hsub. lia.
Qed.

Lemma more_text_no_new_findings_witness :
  exists shorter longer,
    analyze_contract_rules SumPlain _load_risk_rules morning two_clause_text = Ok shorter /\
    analyze_contract_rules SumPlain _load_risk_rules morning
      ("1. " ++ two_clause_text ++ "; either party may cancel.") = Ok longer /\
    RuleReport.total_risks longer <= RuleReport.total_risks shorter.
Proof.
  destruct (analyze_contract_rules SumPlain _load_risk_rules morning two_clause_text)
    as [shorter|] eqn:H1;
    [|rewrite (analyze_contract_rules_ok _ _ _ _ catalog_well_formed) in H1; discriminate].
  destruct (analyze_contract_rules SumPlain _load_risk_rules morning
              ("1. " ++ two_clause_text ++ "; either party may cancel."))
    as [longer|] eqn:H2;
    [|rewrite (analyze_contract_rules_ok _ _ _ _ catalog_well_formed) in H2; discriminate].
  exists shorter, longer. repeat split.
  exact (proj2 (more_text_no_new_findings SumPlain _load_risk_rules morning "1. "
                  two_clause_text "; either party may cancel." shorter longer
                  catalog_well_formed H1 H2)).
Defined.

(** *** The score *)

(** [k] holds of every pair of subsequences of [l] of which the first lies
    within the second. *)
Fixpoint forall_nested {A} (l : list A) (k : list A -> list A -> bool) : bool :=
  match l with
  | [] => k [] []
  | x :: l' =>
      forall_nested l' (fun a b => k a b && k a (x :: b) && k (x :: a) (x :: b))
  end.

Lemma forall_nested_filter {A} (P Q : A -> Prop) `{!∀ x, Decision (P x)}
    `{!∀ x, Decision (Q x)} (l : list A) : forall k,
  forall_nested l k = true ->
  (forall x, P x -> Q x) ->
  k (filter P l) (filter Q l) = true.
Proof.
  induction l as [|x l IH]; intros k Hall HPQ; [exact Hall|].
  cbn [forall_nested] in Hall. specialize (IH _ Hall HPQ). cbn beta in IH.
  apply andb_prop in IH as [IH H3]. apply andb_prop in IH as [H1 H2].
  rewrite !filter_cons. destruct (decide (P x)) as [HP|HP].
  - now rewrite decide_True by auto.
  - now destruct (decide (Q x)).
Qed.

(** The levels in their order. *)
Definition level_rank (level : string) : Z :=
  if String.eqb level "HIGH" then 2
  else if String.eqb level "MEDIUM" then 1
  else 0.

Definition no_higher (py : sum_impl) (fewer more : Catalog) : bool :=
  let lo := normalized_of py _load_risk_rules fewer in
  let hi := normalized_of py _load_risk_rules more in
  ((lo <=? hi)%float && (py_round2 lo <=? py_round2 hi)%float
   && (level_rank (level_of lo) <=? level_rank (level_of hi)))%bool.

Lemma fewer_missing_no_higher py :
  forall_nested _load_risk_rules (no_higher py) = true.
Proof. destruct py; vm_compute; reflexivity. Qed.

(** X4. Text added before or after a contract never raises its score, before
    or after rounding, nor its risk level. *)
Theorem more_text_no_higher_score (py : sum_impl) (now : datetime)
    (before text after : string) :
  exists shorter longer,
    analyze_contract_rules py _load_risk_rules now text = Ok shorter /\
    analyze_contract_rules py _load_risk_rules now (before ++ text ++ after) = Ok longer /\
    (normalized_score py _load_risk_rules (before ++ text ++ after) <=?
       normalized_score py _load_risk_rules text)%float = true /\
    (RuleReport.overall_risk_score longer <=?
       RuleReport.overall_risk_score shorter)%float = true /\
    level_rank (RuleReport.risk_level longer) <= level_rank (RuleReport.risk_level shorter).
Proof.
  rewrite !(analyze_contract_rules_ok _ _ _ _ catalog_well_formed).
  eexists _, _. split; [reflexivity|]. split; [reflexivity|].
  cbn [RuleReport.overall_risk_score RuleReport.risk_level].
  assert (H : no_higher py
                (missing _load_risk_rules (PyStr.lower (before ++ text ++ after)))
                (missing _load_risk_rules (PyStr.lower text)) = true).
  { apply (forall_nested_filter _ _ _ _ (fewer_missing_no_higher py)).
    intros [risk_id rule]. apply absent_around. }
  unfold no_higher in H.
  apply andb_prop in H as [H H3]. apply andb_prop in H as [H1 H2].
  repeat split; [exact H1|exact H2|]. now apply Z.leb_le.
Qed.

(** *** Every clause present *)

Lemma all_present_missing risk_rules text :
  (forall item, item ∈ risk_rules ->
     exists p, p ∈ Rule.patterns item.2 /\ occurs p text) <->
  missing risk_rules text = [].
Proof.
  unfold missing. split.
  - intros Hall.
    destruct (filter _ risk_rules) as [|item found] eqn:Hf; [reflexivity|].
    assert (Hm : item ∈ filter (fun item => absent text item.2 = true) risk_rules)
      by (rewrite Hf; left).
    apply list_elem_of_filter in Hm as [Habs Hin].
    destruct (Hall item Hin) as (p & Hp & Hocc).
    destruct (proj1 (absent_no_pattern text item.2) Habs p Hp Hocc).
  - intros Hnil item Hin.
    destruct (absent text item.2) eqn:Habs.
    + assert (Hm : item ∈ filter (fun item => absent text item.2 = true) risk_rules)
        by (apply list_elem_of_filter; auto).
      rewrite Hnil in Hm. now apply elem_of_nil in Hm.
    + unfold absent in Habs.
      destruct (filter _ (Rule.patterns item.2)) as [|p found] eqn:Hf; [discriminate|].
      assert (Hp : p ∈ filter (fun p => hit text p = true) (Rule.patterns item.2))
        by (rewrite Hf; left).
      apply list_elem_of_filter in Hp as [Hhit Hp].
      exists p. split; [exact Hp|now apply hit_occurs].
Qed.

(** X5. A text in which every rule of the catalog has a pattern that occurs
    gets a report with no finding, the score 0, the level LOW and three empty
    buckets, and the combined report recommends nothing. *)
Theorem every_clause_present (py : sum_impl) (now : datetime) (contract_text : string)
    (ai_analysis : option string) :
  (forall item, item ∈ _load_risk_rules ->
     exists p, p ∈ Rule.patterns item.2 /\ occurs p (PyStr.lower contract_text)) ->
  exists report,
    analyze_contract_rules py _load_risk_rules now contract_text = Ok report /\
    RuleReport.risks_identified report = [] /\
    RuleReport.total_risks report = 0 /\
    RuleReport.overall_risk_score report = 0%float /\
    RuleReport.risk_level report = "LOW" /\
    (forall sev, bucket (RuleReport.risks_by_severity report) sev = []) /\
    let combined := _combine_analyses now ai_analysis report contract_text in
    Recommendations.immediate_actions (CombinedReport.recommendations combined) = [] /\
    Recommendations.medium_term_improvements (CombinedReport.recommendations combined) = [] /\
    RuleBasedAnalysis.critical_gaps (CombinedReport.rule_based_analysis combined) = 0.
Proof.
  intros Hall. apply all_present_missing in Hall.
  rewrite (analyze_contract_rules_ok _ _ _ _ catalog_well_formed).
  eexists. split; [reflexivity|].
  cbn [RuleReport.risks_identified RuleReport.total_risks RuleReport.overall_risk_score
       RuleReport.risk_level RuleReport.risks_by_severity].
  unfold normalized_score. rewrite Hall.
  assert (Hzero : normalized_of py _load_risk_rules [] = 0%float)
    by (destruct py; vm_compute; reflexivity).
  rewrite Hzero. repeat split.
  intros sev. unfold bucket, _group_risks_by_severity. cbn [findings map fold_left].
  destruct (decide (sev = "HIGH")) as [->|?]; [reflexivity|].
  destruct (decide (sev = "MEDIUM")) as [->|?]; [reflexivity|].
  destruct (decide (sev = "LOW")) as [->|?]; [reflexivity|].
  now rewrite !lookup_insert_ne, lookup_empty by congruence.
Qed.

(** A text that addresses every rule of the catalog. *)
Definition full_text : string :=
  "Liability is limited: limitation of liability applies. Either party may terminate.
Governing law: California. Confidential information stays confidential.
Fees: $1,000; a late fee of 2% applies. Copyright stays with the author.
Force majeure. Any amendment needs written consent. This clause is severable."%string.

Lemma every_clause_present_witness :
  exists report,
    analyze_contract_rules SumPlain _load_risk_rules morning full_text = Ok report /\
    RuleReport.risks_identified report = [] /\
    RuleReport.risk_level report = "LOW".
Proof.
  assert (Hall : forall item, item ∈ _load_risk_rules ->
            exists p, p ∈ Rule.patterns item.2 /\ occurs p (PyStr.lower full_text)).
  { apply all_present_missing. vm_compute. reflexivity. }
  destruct (every_clause_present SumPlain morning full_text None Hall)
    as (report & Hrun & Hnone & _ & _ & Hlow & _).
  exists report. auto.
Defined.

(** *** Score and level side by side *)

Definition level_fits (py : sum_impl) (missing_rules : Catalog) : bool :=
  let normalized := normalized_of py _load_risk_rules missing_rules in
  let reported := py_round2 normalized in
  match level_rank (level_of normalized) with
  | 2 => (0.7 <=? reported)%float
  | 1 => ((0.4 <=? reported) && (reported <=? 0.7))%float
  | _ => (reported <=? 0.4)%float
  end.

Lemma all_levels_fit py : forallb (level_fits py) (sublists _load_risk_rules) = true.
Proof. destruct py; vm_compute; reflexivity. Qed.

Lemma level_of_cases x :
  level_of x = "HIGH" \/ level_of x = "MEDIUM" \/ level_of x = "LOW".
Proof.
  unfold level_of. destruct (0.7 <=? x)%float; [auto|].
  destruct (0.4 <=? x)%float; auto.
Qed.

(** X6. The rounding moves the reported score across a threshold only as far
    as the threshold itself: a HIGH report shows at least 0.7, a MEDIUM
    report between 0.4 and 0.7, a LOW report at most 0.4. *)
Theorem reported_score_fits_level (py : sum_impl) (now : datetime) (contract_text : string) :
  exists report,
    analyze_contract_rules py _load_risk_rules now contract_text = Ok report /\
    let reported := RuleReport.overall_risk_score report in
    (RuleReport.risk_level report = "HIGH" -> (0.7 <=? reported)%float = true) /\
    (RuleReport.risk_level report = "MEDIUM" ->
       (0.4 <=? reported)%float = true /\ (reported <=? 0.7)%float = true) /\
    (RuleReport.risk_level report = "LOW" -> (reported <=? 0.4)%float = true).
Proof.
  rewrite (analyze_contract_rules_ok _ _ _ _ catalog_well_formed).
  eexists. split; [reflexivity|].
  cbn [RuleReport.overall_risk_score RuleReport.risk_level].
  pose proof (all_levels_fit py) as H. rewrite forallb_forall in H.
  specialize (H _ (missing_in_sublists _load_risk_rules (PyStr.lower contract_text))).
  unfold level_fits in H. fold (normalized_score py _load_risk_rules contract_text) in H.
  destruct (level_of_cases (normalized_score py _load_risk_rules contract_text))
    as [Hl|[Hl|Hl]]; rewrite Hl in *; cbn in H;
    (split; [|split]); intros Heq; try discriminate;
    try exact H; now apply andb_prop in H.
Qed.

(** ** Categories *)

Lemma existsb_eqb_elem (x : string) (l : list string) :
  existsb (String.eqb x) l = true <-> x ∈ l.
Proof.
  induction l as [|y l IH]; cbn [existsb].
  - split; [discriminate|]. intros H. now apply elem_of_nil in H.
  - rewrite orb_true_iff, IH, String.eqb_eq, elem_of_cons. reflexivity.
Qed.

Lemma categorize_unlisted cats risk_id :
  (forall entry, entry ∈ cats -> risk_id ∉ entry.2) ->
  categorize_in cats risk_id = "General".
Proof.
  induction cats as [|[category risks] cats IH]; intros Hout; [reflexivity|].
  cbn [categorize_in].
  destruct (existsb (String.eqb risk_id) risks) eqn:Hin.
  - apply existsb_eqb_elem in Hin. destruct (Hout (category, risks)); [left|exact Hin].
  - apply IH. intros entry Hentry. apply Hout. now right.
Qed.

(** The names a finding of the catalog can be filed under. *)
Definition category_names : list string :=
  ["Liability"; "Termination"; "Legal"; "Confidentiality"; "Financial";
   "Intellectual Property"; "Operational"].

Definition well_filed (risk : Risk.t) : Prop :=
  Risk.category risk ∈ category_names /\
  Risk.category risk <> "General" /\
  (Risk.risk_id risk = "vague_payment_terms" -> Risk.category risk = "Liability") /\
  (Risk.category risk = "Financial" -> Risk.risk_id risk = "missing_late_fees").

Lemma catalog_well_filed : Forall well_filed (findings _load_risk_rules).
Proof.
  repeat constructor; cbn; try discriminate; unfold category_names; set_solver.
Qed.

(** X7. The category table covers the catalog: no finding is filed under
    General, the payment terms, listed under two categories, are filed under
    the first (Liability), and a key the table does not list is filed under
    General. *)
Theorem categories_cover_catalog (py : sum_impl) (now : datetime) (contract_text : string) :
  (exists report,
     analyze_contract_rules py _load_risk_rules now contract_text = Ok report /\
     Forall well_filed (RuleReport.risks_identified report)) /\
  (forall risk_id,
     (forall entry, entry ∈ categories -> risk_id ∉ entry.2) ->
     _categorize_risk risk_id = "General").
Proof.
  split.
  - rewrite (analyze_contract_rules_ok _ _ _ _ catalog_well_formed).
    eexists. split; [reflexivity|]. cbn [RuleReport.risks_identified].
    apply Forall_forall. intros risk Hrisk.
    pose proof catalog_well_filed as Hall. rewrite Forall_forall in Hall.
    apply Hall. eapply sublist_subseteq; [apply findings_sublist|exact Hrisk].
  - intros risk_id. apply categorize_unlisted.
Qed.

(** ** Grouping any findings *)

Lemma group_step_none (grouped : gmap string (list Risk.t)) risk sev :
  grouped !! sev = None -> group_step grouped risk !! sev = None.
Proof.
  intros Hnone. unfold group_step.
  destruct (grouped !! Risk.severity risk) as [b|] eqn:Hb; [|exact Hnone].
  rewrite lookup_insert_ne; [exact Hnone|congruence].
Qed.

Lemma fold_group_none risks : forall (grouped : gmap string (list Risk.t)) sev,
  grouped !! sev = None -> fold_left group_step risks grouped !! sev = None.
Proof.
  induction risks as [|risk risks IH]; intros grouped sev Hnone; [exact Hnone|].
  cbn [fold_left]. apply IH. now apply group_step_none.
Qed.

Lemma fold_group_some risks : forall (grouped : gmap string (list Risk.t)) sev,
  is_Some (grouped !! sev) -> is_Some (fold_left group_step risks grouped !! sev).
Proof.
  induction risks as [|risk risks IH]; intros grouped sev Hsome; [exact Hsome|].
  cbn [fold_left]. apply IH. now apply bucket_group_step.
Qed.

Lemma known_severities_length risks :
  (length (filter (fun r => Risk.severity r = "HIGH") risks)
   + length (filter (fun r => Risk.severity r = "MEDIUM") risks)
   + length (filter (fun r => Risk.severity r = "LOW") risks))%nat =
  length (filter (fun r => Risk.severity r ∈ severities) risks).
Proof.
  induction risks as [|r risks IH]; [reflexivity|].
  rewrite !filter_cons. unfold severities in *.
  destruct (decide (Risk.severity r = "HIGH")) as [Hh|Hh];
    destruct (decide (Risk.severity r = "MEDIUM")) as [Hm|Hm];
    destruct (decide (Risk.severity r = "LOW")) as [Hl|Hl];
    try congruence;
    destruct (decide (Risk.severity r ∈ ["HIGH"; "MEDIUM"; "LOW"])) as [Hin|Hin];
    cbn [length]; try lia; exfalso;
    rewrite !elem_of_cons, elem_of_nil in Hin; tauto.
Qed.

(** X8. Whatever the findings, the grouping has the three keys HIGH, MEDIUM
    and LOW and no other; each holds the findings of that severity in their
    order, and a finding of any other severity is dropped without an error. *)
Theorem grouping_has_three_keys (risks : list Risk.t) :
  let grouped := _group_risks_by_severity risks in
  (forall sev, sev ∈ severities ->
     grouped !! sev = Some (filter (fun r => Risk.severity r = sev) risks)) /\
  (forall sev, sev ∉ severities -> grouped !! sev = None) /\
  (forall risk sev, Risk.severity risk ∉ severities -> risk ∉ bucket grouped sev) /\
  (length (bucket grouped "HIGH") + length (bucket grouped "MEDIUM")
   + length (bucket grouped "LOW"))%nat =
    length (filter (fun r => Risk.severity r ∈ severities) risks).
Proof.
  cbv zeta.
  assert (Hknown : forall sev, sev ∈ severities ->
            _group_risks_by_severity risks !! sev =
              Some (filter (fun r => Risk.severity r = sev) risks)).
  { intros sev Hsev. pose proof (bucket_group risks sev Hsev) as Hb.
    assert (Hsome : is_Some (_group_risks_by_severity risks !! sev)).
    { apply fold_group_some. unfold severities in Hsev.
      repeat (apply elem_of_cons in Hsev as [->|Hsev]); try (eexists; reflexivity).
      now apply elem_of_nil in Hsev. }
    destruct Hsome as [b Hsome]. unfold bucket in Hb. rewrite Hsome in Hb |- *.
    cbn in Hb. now subst b. }
  assert (Hother : forall sev, sev ∉ severities ->
            _group_risks_by_severity risks !! sev = None).
  { intros sev Hsev. apply fold_group_none. unfold severities in Hsev.
    rewrite !lookup_insert_ne, lookup_empty; [reflexivity| | |]; set_solver. }
  repeat split; [exact Hknown|exact Hother| |].
  - intros risk sev Hrisk Hin. unfold bucket in Hin.
    destruct (decide (sev ∈ severities)) as [Hsev|Hsev].
    + rewrite (Hknown sev Hsev) in Hin. cbn in Hin.
      apply list_elem_of_filter in Hin as [<- _]. contradiction.
    + rewrite (Hother sev Hsev) in Hin. cbn in Hin. now apply elem_of_nil in Hin.
  - rewrite !bucket_group by (unfold severities; set_solver).
    apply known_severities_length.
Qed.

(** ** Contract statistics *)

Lemma count_runs_bounds s : forall inside,
  0 <= count_runs inside s <= Z.of_nat (String.length s).
Proof.
  induction s as [|c s IH]; intros inside; cbn [count_runs String.length]; [lia|].
  destruct (is_terminator c).
  - specialize (IH true). destruct inside; lia.
  - specialize (IH false). lia.
Qed.

Lemma count_sections_bounds s : forall st,
  0 <= count_sections st s <= Z.of_nat (String.length s).
Proof.
  induction s as [|c s IH]; intros st; cbn [count_sections String.length]; [lia|].
  pose proof (IH LineStart). pose proof (IH LeadingDigits). pose proof (IH Elsewhere).
  destruct (Ascii.eqb c "010"); [lia|].
  destruct st; [destruct (PyStr.is_digit c); lia| |lia].
  destruct (PyStr.is_digit c); [lia|]. destruct (Ascii.eqb c "."); lia.
Qed.

Lemma split_from_length s : forall cur,
  (length (PyStr.split_from s cur) <=
   String.length s + (if PyStr.is_empty cur then 0 else 1))%nat.
Proof.
  induction s as [|c s IH]; intros cur; cbn [PyStr.split_from String.length].
  - destruct (PyStr.is_empty cur); cbn; lia.
  - destruct (PyStr.is_space c).
    + specialize (IH ""). cbn [PyStr.is_empty] in IH.
      destruct (PyStr.is_empty cur); cbn [length]; lia.
    + specialize (IH (cur ++ String c "")).
      assert (Hne : PyStr.is_empty (cur ++ String c "") = false)
        by (destruct cur; reflexivity).
      rewrite Hne in IH. destruct (PyStr.is_empty cur); lia.
Qed.

(** X9. The statistics of any text: no more words, sentences or sections
    than characters; at least one page and one minute of reading, pages never
    more than minutes; and a complexity between 1 and 10, the minutes of
    reading capped at 10.  A text of fewer than 200 words, the empty one
    included, counts as one page, one minute and complexity 1. *)
Theorem statistics_bounds (contract_text : string) :
  let stats := _extract_contract_statistics contract_text in
  0 <= ContractStatistics.word_count stats <= ContractStatistics.character_count stats /\
  0 <= ContractStatistics.sentence_count stats <= ContractStatistics.character_count stats /\
  0 <= ContractStatistics.section_count stats <= ContractStatistics.character_count stats /\
  1 <= ContractStatistics.estimated_pages stats <=
    ContractStatistics.reading_time_minutes stats /\
  ContractStatistics.complexity_score stats =
    Z.min 10 (ContractStatistics.reading_time_minutes stats) /\
  1 <= ContractStatistics.complexity_score stats <= 10 /\
  (ContractStatistics.word_count stats < 200 ->
     ContractStatistics.estimated_pages stats = 1 /\
     ContractStatistics.reading_time_minutes stats = 1 /\
     ContractStatistics.complexity_score stats = 1).
Proof.
  cbv zeta. unfold _extract_contract_statistics, PyStr.len.
  cbn [ContractStatistics.word_count ContractStatistics.character_count
       ContractStatistics.sentence_count ContractStatistics.section_count
       ContractStatistics.estimated_pages ContractStatistics.reading_time_minutes
       ContractStatistics.complexity_score].
  pose proof (count_runs_bounds contract_text false).
  pose proof (count_sections_bounds contract_text LineStart).
  pose proof (split_from_length contract_text "") as Hwords.
  cbn [PyStr.is_empty] in Hwords. fold (PyStr.split contract_text) in Hwords.
  set (n := Z.of_nat (length (PyStr.split contract_text))) in *.
  assert (Hn : 0 <= n) by (unfold n; lia).
  assert (Hdiv : n / 250 <= n / 200) by (apply Z.div_le_compat_l; lia).
  assert (H250 : 0 <= n / 250) by (apply Z.div_pos; lia).
  assert (Hshort : n < 200 -> n / 250 = 0 /\ n / 200 = 0)
    by (intros Hlt; split; apply Z.div_small; lia).
  split; [lia|]. split; [lia|]. split; [lia|]. split; [lia|].
  split; [reflexivity|]. split; [lia|].
  intros Hlt. destruct (Hshort Hlt) as [-> ->]. repeat split.
Qed.

(** ** The combined report and its parts *)

Lemma report_total py risk_rules now contract_text report :
  analyze_contract_rules py risk_rules now contract_text = Ok report ->
  RuleReport.total_risks report = Z.of_nat (length (RuleReport.risks_identified report)) /\
  RuleReport.risks_by_severity report =
    _group_risks_by_severity (RuleReport.risks_identified report) /\
  RuleReport.contract_length report = Z.of_nat (length (PyStr.split contract_text)).
Proof.
  unfold analyze_contract_rules.
  destruct (scan_rules risk_rules _ _) as [st|msg]; [|discriminate].
  cbn. intros [= <-]. cbn. auto.
Qed.

(** X10. In the combined report of a rule report the counts agree: the
    missing clauses and the total of issues are the findings, the critical
    gaps are the HIGH bucket and the immediate actions, the medium-term
    improvements are the MEDIUM bucket, and the word count is the contract
    length of the rule report. *)
Theorem combined_counts_agree py risk_rules now now' ai_analysis contract_text report :
  analyze_contract_rules py risk_rules now contract_text = Ok report ->
  let combined := _combine_analyses now' ai_analysis report contract_text in
  let section := CombinedReport.rule_based_analysis combined in
  let recs := CombinedReport.recommendations combined in
  let grouped := RuleBasedAnalysis.risks_by_severity section in
  RuleBasedAnalysis.missing_clauses section =
    OverallRiskAssessment.total_issues (CombinedReport.overall_risk_assessment combined) /\
  RuleBasedAnalysis.missing_clauses section =
    Z.of_nat (length (RuleBasedAnalysis.risks_identified section)) /\
  RuleBasedAnalysis.critical_gaps section = Z.of_nat (length (bucket grouped "HIGH")) /\
  length (Recommendations.immediate_actions recs) = length (bucket grouped "HIGH") /\
  length (Recommendations.medium_term_improvements recs) =
    length (bucket grouped "MEDIUM") /\
  ContractStatistics.word_count (CombinedReport.contract_statistics combined) =
    RuleReport.contract_length report.
Proof.
  intros Hrun. destruct (report_total _ _ _ _ _ Hrun) as (Htotal & Hgroup & Hlen).
  cbv zeta. cbn. rewrite Htotal, Hgroup, Hlen.
  rewrite !bucket_group by (unfold severities; set_solver).
  unfold _get_high_priority_recommendations, _get_medium_priority_recommendations.
  rewrite !length_map. repeat split.
Qed.

Lemma combined_counts_agree_witness :
  exists report,
    analyze_contract_rules SumPlain _load_risk_rules morning two_clause_text = Ok report /\
    let combined := _combine_analyses evening None report two_clause_text in
    RuleBasedAnalysis.critical_gaps (CombinedReport.rule_based_analysis combined) =
      Z.of_nat (length (bucket (RuleBasedAnalysis.risks_by_severity
                                  (CombinedReport.rule_based_analysis combined)) "HIGH")).
Proof.
  destruct (analyze_contract_rules SumPlain _load_risk_rules morning two_clause_text)
    as [report|msg] eqn:Hrun;
    [|rewrite (analyze_contract_rules_ok _ _ _ _ catalog_well_formed) in Hrun; discriminate].
  exists report. split; [reflexivity|].
  exact (proj1 (proj2 (proj2 (combined_counts_agree SumPlain _load_risk_rules morning
                                evening None two_clause_text report Hrun)))).
Defined.

(** ** The parties of a contract *)

(** X11. [_extract_parties] returns a complete pair or nothing: the pair
    party1/party2 when both are given, else client/provider when both are
    given, else employer/employee when both are given, and the empty list
    when no pair is complete. *)
Theorem extract_parties_pairs (params : gmap string string) :
  let parties := _extract_parties params in
  let pair a b :=
    match params !! a, params !! b with
    | Some x, Some y => Some [x; y]
    | _, _ => None
    end in
  (length parties = 0%nat \/ length parties = 2%nat) /\
  (forall l, pair "party1" "party2" = Some l -> parties = l) /\
  (forall l, pair "party1" "party2" = None ->
             pair "client" "provider" = Some l -> parties = l) /\
  (forall l, pair "party1" "party2" = None -> pair "client" "provider" = None ->
             pair "employer" "employee" = Some l -> parties = l) /\
  (pair "party1" "party2" = None -> pair "client" "provider" = None ->
   pair "employer" "employee" = None -> parties = []).
Proof.
  cbv zeta. unfold _extract_parties.
  destruct (params !! "party1"), (params !! "party2"),
    (params !! "client"), (params !! "provider"),
    (params !! "employer"), (params !! "employee");
    cbn; repeat split; auto; intros; congruence.
Qed.

(** ** The prompts and the required fields *)

(** The fields an f-string reads, in the order it reads them. *)
Definition fields_of (template : list piece) : list string :=
  flat_map (fun p => match p with Field key => [key] | Text _ => [] end) template.

(** The [required_fields] that [get_supported_contract_types] lists for a
    type. *)
Definition required_fields (contract_type : string) : list string :=
  match find (fun entry => String.eqb entry.1 contract_type) get_supported_contract_types with
  | Some entry => ContractType.required_fields entry.2
  | None => []
  end.

Definition same_keys (l1 l2 : list string) : bool :=
  forallb (fun key => existsb (String.eqb key) l2) l1 &&
  forallb (fun key => existsb (String.eqb key) l1) l2.

Lemma same_keys_elem l1 l2 key :
  same_keys l1 l2 = true -> (key ∈ l1 <-> key ∈ l2).
Proof.
  unfold same_keys. rewrite andb_true_iff, !forallb_forall.
  intros [H12 H21]. split; intros Hin; apply existsb_eqb_elem;
    [apply H12|apply H21]; now apply list_elem_of_In.
Qed.

Lemma render_present template params :
  (forall key, key ∈ fields_of template -> is_Some (params !! key)) ->
  exists prompt, render template params = Ok prompt.
Proof.
  induction template as [|[s|key] rest IH]; intros Hall; cbn [render].
  - now eexists.
  - destruct IH as [tail ->]; [exact Hall|]. now eexists.
  - destruct (Hall key) as [value ->]; [cbn; left|].
    destruct IH as [tail ->]; [|now eexists].
    intros key' Hin. apply Hall. cbn. now right.
Qed.

Lemma render_missing template params key :
  key ∈ fields_of template -> params !! key = None ->
  exists missing,
    missing ∈ fields_of template /\ params !! missing = None /\
    render template params = Raise ("'" ++ missing ++ "'").
Proof.
  induction template as [|[s|field] rest IH]; intros Hin Hnone.
  - now apply elem_of_nil in Hin.
  - destruct (IH Hin Hnone) as (missing & Hm & Hmnone & Hrun).
    exists missing. cbn [render]. rewrite Hrun. auto.
  - cbn [render]. destruct (params !! field) as [value|] eqn:Hfield.
    + cbn in Hin. apply elem_of_cons in Hin as [->|Hin]; [congruence|].
      destruct (IH Hin Hnone) as (missing & Hm & Hmnone & Hrun).
      exists missing. rewrite Hrun. split; [cbn; now right|auto].
    + exists field. split; [cbn; left|auto].
Qed.

Lemma prompts_read_required_fields :
  same_keys (fields_of nda_prompt) (required_fields "NDA") = true /\
  same_keys (fields_of service_prompt) (required_fields "SERVICE") = true /\
  same_keys (fields_of employment_prompt) (required_fields "EMPLOYMENT") = true.
Proof. repeat split; vm_compute; reflexivity. Qed.

(** ** The case of a contract type *)

(** [s.isascii()] *)
Fixpoint isascii (s : string) : bool :=
  match s with
  | EmptyString => true
  | String c s' => (PyStr.code c <? 128)%N && isascii s'
  end.

Lemma isascii_lower_char c :
  (PyStr.code (PyStr.lower_char c) <? 128)%N = (PyStr.code c <? 128)%N.
Proof. destruct c as [[] [] [] [] [] [] [] []]; reflexivity. Qed.

Lemma isascii_upper_char c :
  (PyStr.code (PyStr.upper_char c) <? 128)%N = (PyStr.code c <? 128)%N.
Proof. destruct c as [[] [] [] [] [] [] [] []]; reflexivity. Qed.

Lemma isascii_lower s : isascii s = true -> isascii (PyStr.lower s) = true.
Proof.
  induction s as [|c s IH]; [reflexivity|]. cbn [isascii PyStr.lower].
  rewrite isascii_lower_char, !andb_true_iff. intros [Hc Hs]. auto.
Qed.

Lemma isascii_upper s : isascii s = true -> isascii (PyStr.upper s) = true.
Proof.
  induction s as [|c s IH]; [reflexivity|]. cbn [isascii PyStr.upper].
  rewrite isascii_upper_char, !andb_true_iff. intros [Hc Hs]. auto.
Qed.

Lemma upper_char_lower_char c : PyStr.upper_char (PyStr.lower_char c) = PyStr.upper_char c.
Proof. destruct c as [[] [] [] [] [] [] [] []]; reflexivity. Qed.

Lemma upper_char_idem c : PyStr.upper_char (PyStr.upper_char c) = PyStr.upper_char c.
Proof. destruct c as [[] [] [] [] [] [] [] []]; reflexivity. Qed.

Lemma upper_lower s : PyStr.upper (PyStr.lower s) = PyStr.upper s.
Proof.
  induction s as [|c s IH]; [reflexivity|].
  cbn [PyStr.lower PyStr.upper]. now rewrite upper_char_lower_char, IH.
Qed.

Lemma upper_idem s : PyStr.upper (PyStr.upper s) = PyStr.upper s.
Proof.
  induction s as [|c s IH]; [reflexivity|].
  cbn [PyStr.upper]. now rewrite upper_char_idem, IH.
Qed.

(** A generator as the application builds it, over the one limiter of
    [one_limiter_world]. *)
Definition lone_generator : ContractGenerator.t :=
  {| ContractGenerator.api_key := "AIza-key";
     ContractGenerator.rate_limiter := 0;
     ContractGenerator.max_tokens := 2000;
     ContractGenerator.temperature := 0.1%float |}.

(** The parameters of an NDA form that lacks the term. *)
Definition nda_without_term : gmap string string :=
  <["party1" := "Acme Ltd"]> (<["party2" := "Bolt Inc"]> (<["date" := "2024-05-01"]>
    (<["jurisdiction" := "Delaware"]> ∅))).

Section Generation.

Variable service : string -> Reply.
Variable calendar : Z -> datetime.
Variables Validation Metadata : Type.
Variable validate_contract_params : string -> gmap string string -> Validation.
Variable has_error : Validation -> bool.
Variable extract_contract_metadata : string -> Result Metadata.
Variable metadata_word_count : Metadata -> Result Z.
Variable save_contract : string -> string -> list string -> Result string.

Local Abbreviation generate :=
  (_generate_contract service calendar Validation Metadata validate_contract_params
     has_error extract_contract_metadata metadata_word_count save_contract).
Local Abbreviation nda :=
  (generate_nda_contract service calendar Validation Metadata validate_contract_params
     has_error extract_contract_metadata metadata_word_count save_contract).
Local Abbreviation service_agreement :=
  (generate_service_agreement service calendar Validation Metadata validate_contract_params
     has_error extract_contract_metadata metadata_word_count save_contract).
Local Abbreviation employment :=
  (generate_employment_agreement service calendar Validation Metadata
     validate_contract_params has_error extract_contract_metadata metadata_word_count
     save_contract).
(** The three entry points, each with its type and the f-string of its
    prompt. *)
Definition entry_points :
    list (string * list piece *
          (ContractGenerator.t -> gmap string string ->
           M (GenerationResult Validation Metadata))) :=
  [("NDA", nda_prompt, nda);
   ("SERVICE", service_prompt, service_agreement);
   ("EMPLOYMENT", employment_prompt, employment)].

Lemma entry_point_builds contract_type template build :
  (contract_type, template, build) ∈ entry_points ->
  (forall key, key ∈ fields_of template <-> key ∈ required_fields contract_type) /\
  (forall self params w,
     build self params w =
       match render template params with
       | Ok prompt => generate self contract_type prompt params w
       | Raise msg => (Raise msg, w)
       end).
Proof.
  destruct prompts_read_required_fields as (Hnda & Hservice & Hemployment).
  unfold entry_points. intros Hin.
  repeat (apply elem_of_cons in Hin as [Hin|Hin]); try (now apply elem_of_nil in Hin);
    injection Hin as -> -> ->;
    (split; [intros key; now apply same_keys_elem|]);
    intros self params w;
    unfold generate_nda_contract, generate_service_agreement,
      generate_employment_agreement, mbind, M_bind, lift;
    now destruct (render _ params).
Qed.

(** X12. Each of the three entry points reads, to build its prompt, the
    fields that [get_supported_contract_types] lists as required for its
    type, and no other.  With all of them in the parameters the prompt is
    built and handed to [_generate_contract]; with one of them missing the
    entry point raises the [KeyError] of a missing required field and has
    done nothing by then: no validation, no wait, no call. *)
Theorem entry_points_need_required_fields contract_type template build self params w :
  (contract_type, template, build) ∈ entry_points ->
  ((forall key, key ∈ required_fields contract_type -> is_Some (params !! key)) ->
   exists prompt,
     render template params = Ok prompt /\
     build self params w = generate self contract_type prompt params w) /\
  (forall key, key ∈ required_fields contract_type -> params !! key = None ->
   exists missing,
     missing ∈ required_fields contract_type /\ params !! missing = None /\
     build self params w = (Raise ("'" ++ missing ++ "'"), w)).
Proof.
  intros Hentry. destruct (entry_point_builds _ _ _ Hentry) as [Hkeys Hbuild].
  split.
  - intros Hall. destruct (render_present template params) as [prompt Hprompt].
    + intros key Hin. apply Hall. now apply Hkeys.
    + exists prompt. split; [exact Hprompt|]. now rewrite Hbuild, Hprompt.
  - intros key Hin Hnone.
    destruct (render_missing template params key) as (missing & Hm & Hmnone & Hrun);
      [now apply Hkeys|exact Hnone|].
    exists missing. split; [now apply Hkeys|]. split; [exact Hmnone|].
    now rewrite Hbuild, Hrun.
Qed.

(** X13. Once the parameters have passed the validation and the limiter has
    let the caller go on, [_generate_contract] sends the prompt once and,
    whether the service answers or raises an [Exception], returns a dict.
    The dict of a success means that the service answered and that the
    metadata, the file and the word count were obtained, and it holds the
    stripped answer; the dict of a failure names the exception of the step
    that raised, after the fixed prefix, and repeats the type and the
    parameters of the request. *)
Theorem generation_reports_its_outcome self contract_type prompt params w w1 :
  has_error (validate_contract_params contract_type params) = false ->
  wait_if_needed (ContractGenerator.rate_limiter self) w = (Ok tt, w1) ->
  exists result w2,
    generate self contract_type prompt params w = (Ok result, w2) /\
    sent w2 = (wall w1, prompt) :: sent w1 /\
    tracked w2 = "contract_generation" :: tracked w1 /\
    match result with
    | Rejected _ => False
    | Generated contract =>
        exists text,
          outcome (service prompt) = Ok text /\
          extract_contract_metadata (PyStr.strip text) =
            Ok (GeneratedContract.metadata contract) /\
          save_contract (PyStr.strip text) contract_type (_extract_parties params) =
            Ok (GeneratedContract.file_path contract) /\
          is_ok (metadata_word_count (GeneratedContract.metadata contract)) = true /\
          GeneratedContract.success contract = true /\
          GeneratedContract.contract_text contract = PyStr.strip text /\
          GeneratedContract.contract_type contract = contract_type /\
          GeneratedContract.parameters contract = params /\
          ApiUsage.tokens_estimated (GeneratedContract.api_usage contract) =
            PyStr.len (PyStr.strip text) / 4
    | GenerationFailed failure =>
        exists msg,
          (outcome (service prompt) = Raise msg \/
           exists text,
             outcome (service prompt) = Ok text /\
             (extract_contract_metadata (PyStr.strip text) = Raise msg \/
              exists metadata,
                extract_contract_metadata (PyStr.strip text) = Ok metadata /\
                (save_contract (PyStr.strip text) contract_type (_extract_parties params) =
                   Raise msg \/
                 metadata_word_count metadata = Raise msg))) /\
          GenerationFailure.success failure = false /\
          GenerationFailure.error failure = "Contract generation failed: " ++ msg /\
          GenerationFailure.contract_type failure = contract_type /\
          GenerationFailure.parameters failure = params
    end.
Proof.
  intros Hvalid Hwait. unfold _generate_contract. rewrite Hvalid.
  unfold mbind, M_bind. rewrite Hwait.
  unfold try_except, track_request, generate_content, time_time, datetime_now,
    lift, mret, M_ret.
  cbn [wall sent limiters tracked set_wall set_limiters set_sent set_tracked].
  destruct (outcome (service prompt)) as [text|msg] eqn:Hservice;
    [destruct (extract_contract_metadata _) as [metadata|msg] eqn:Hmetadata;
       [destruct (save_contract _ _ _) as [file_path|msg] eqn:Hsave;
          [destruct (metadata_word_count _) as [n|msg] eqn:Hwords|]|]|];
    eexists _, _; (split; [reflexivity|]); cbn [wall sent limiters tracked];
    (split; [reflexivity|]); (split; [reflexivity|]).
  - exists text. cbn. rewrite Hwords. repeat split; assumption.
  - exists msg. cbn. split; [|auto]. right. exists text. split; [reflexivity|].
    right. exists metadata. auto.
  - exists msg. cbn. split; [|auto]. right. exists text. split; [reflexivity|].
    right. exists metadata. auto.
  - exists msg. cbn. split; [|auto]. right. exists text. auto.
  - exists msg. cbn. auto.
Qed.

End Generation.

Section Keys.

Variable getenv_api_key : option string.
Variable env_max_tokens : Z.
Variable env_temperature : float.

Local Abbreviation generator_init :=
  (ContractGenerator_init getenv_api_key env_max_tokens env_temperature).
Local Abbreviation analyzer_init := (ContractRiskAnalyzer_init getenv_api_key).

(** X14. The key of the two constructors.  With no argument and no
    [GEMINI_API_KEY], an empty string counting as none, each constructor
    raises its [ValueError] before it has built anything.  Otherwise the key
    is the argument when that is not empty, and the value of
    [GEMINI_API_KEY] when it is: the analyzer is built with it, and a
    generator, whenever its constructor returns one, holds it. *)
Theorem constructors_need_a_key (api_key : option string) (w : World) :
  let absent value := value = None \/ value = Some "" in
  let resolved key :=
    key <> "" /\
    (api_key = Some key \/ (absent api_key /\ getenv_api_key = Some key)) in
  (absent api_key -> absent getenv_api_key ->
   generator_init api_key w =
     (Raise "GEMINI_API_KEY not found in environment variables", w) /\
   analyzer_init api_key w =
     (Raise "GEMINI_API_KEY not found in environment variables", w)) /\
  (forall key, resolved key ->
   exists analyzer w',
     analyzer_init api_key w = (Ok analyzer, w') /\
     ContractRiskAnalyzer.api_key analyzer = key /\
     ContractRiskAnalyzer.risk_rules analyzer = _load_risk_rules) /\
  (forall generator w',
     generator_init api_key w = (Ok generator, w') ->
     resolved (ContractGenerator.api_key generator)) /\
  (forall analyzer w',
     analyzer_init api_key w = (Ok analyzer, w') ->
     resolved (ContractRiskAnalyzer.api_key analyzer)).
Proof.
  cbv zeta.
  assert (Hgiven : forall value key, value = Some key -> key <> "" -> truthy value = Some key).
  { intros value key -> Hne. destruct key; [contradiction|reflexivity]. }
  assert (Habsent : forall value, value = None \/ value = Some "" -> truthy value = None).
  { intros value [->| ->]; reflexivity. }
  assert (Hresolved : forall key,
            resolve_api_key api_key getenv_api_key = Ok key ->
            key <> "" /\
            (api_key = Some key \/
             ((api_key = None \/ api_key = Some "") /\ getenv_api_key = Some key))).
  { intros key. unfold resolve_api_key.
    destruct api_key as [[|c given]|]; cbn [truthy];
      try (intros [= <-]; split; [discriminate|now left]);
      (destruct getenv_api_key as [[|c' env]|]; cbn [truthy]; try discriminate;
       intros [= <-]; split; [discriminate|right; auto]). }
  split; [|split; [|split]].
  - intros Hnone Henv.
    unfold ContractGenerator_init, ContractRiskAnalyzer_init, resolve_api_key,
      lift, mbind, M_bind.
    rewrite (Habsent _ Hnone), (Habsent _ Henv). split; reflexivity.
  - intros key [Hne [Hkey|[Hnone Hkey]]];
      unfold ContractRiskAnalyzer_init, resolve_api_key, lift, mbind, M_bind, mret, M_ret.
    + rewrite (Hgiven _ _ Hkey Hne), RateLimiter_new_15. eexists _, _. repeat split.
    + rewrite (Habsent _ Hnone), (Hgiven _ _ Hkey Hne), RateLimiter_new_15.
      eexists _, _. repeat split.
  - intros generator w'. unfold ContractGenerator_init, lift, mbind, M_bind, mret, M_ret.
    destruct (resolve_api_key api_key getenv_api_key) as [key|msg] eqn:Hkey;
      [|discriminate].
    rewrite RateLimiter_new_15. intros [= <- _]. cbn. now apply Hresolved.
  - intros analyzer w'. unfold ContractRiskAnalyzer_init, lift, mbind, M_bind, mret, M_ret.
    destruct (resolve_api_key api_key getenv_api_key) as [key|msg] eqn:Hkey;
      [|discriminate].
    rewrite RateLimiter_new_15. intros [= <- _]. cbn. now apply Hresolved.
Qed.

End Keys.

Section Requests.

Variable Validation : Type.
Variable validate_contract_params : string -> gmap string string -> Validation.

Local Abbreviation validate_request :=
  (validate_generation_request Validation validate_contract_params).

(** Whether a request names a type the generator supports. *)
Definition names_supported_type (result : RequestValidation Validation) : bool :=
  match result with
  | Validated _ => true
  | Unsupported _ => false
  end.

(** X15. [validate_generation_request] looks an ASCII type up without regard
    to its case: the type is supported when its upper-case form is NDA,
    SERVICE or EMPLOYMENT, and then the parameters are validated under the
    type as it was written; any other type is answered with the three
    supported types and the type as it was written. *)
Theorem request_type_in_any_case contract_type params :
  isascii contract_type = true ->
  let supported := PyStr.upper contract_type ∈ ["NDA"; "SERVICE"; "EMPLOYMENT"] in
  (supported ->
   validate_request contract_type params =
     Validated (validate_contract_params contract_type params)) /\
  (~ supported ->
   validate_request contract_type params =
     Unsupported
       {| UnsupportedType.valid := false;
          UnsupportedType.error := "Unsupported contract type: " ++ contract_type;
          UnsupportedType.supported_types := ["NDA"; "SERVICE"; "EMPLOYMENT"] |}) /\
  isascii (PyStr.lower contract_type) = true /\
  isascii (PyStr.upper contract_type) = true /\
  names_supported_type (validate_request (PyStr.lower contract_type) params) =
    names_supported_type (validate_request contract_type params) /\
  names_supported_type (validate_request (PyStr.upper contract_type) params) =
    names_supported_type (validate_request contract_type params).
Proof.
  intros Hascii. cbv zeta. unfold validate_generation_request.
  rewrite upper_lower, upper_idem.
  change (map fst get_supported_contract_types) with ["NDA"; "SERVICE"; "EMPLOYMENT"].
  pose proof (isascii_lower _ Hascii) as Hlower.
  pose proof (isascii_upper _ Hascii) as Hupper.
  destruct (existsb (String.eqb (PyStr.upper contract_type)) _) eqn:Hin.
  - apply existsb_eqb_elem in Hin. repeat split; tauto.
  - assert (Hout : PyStr.upper contract_type ∉ ["NDA"; "SERVICE"; "EMPLOYMENT"]).
    { intros Hyes. apply existsb_eqb_elem in Hyes. congruence. }
    repeat split; tauto.
Qed.

End Requests.

Lemma request_type_in_any_case_witness :
  validate_generation_request unit accept_all "nda" nda_without_term = Validated tt /\
  names_supported_type unit (validate_generation_request unit accept_all "NDA" nda_without_term) =
    true.
Proof.
  destruct (request_type_in_any_case unit accept_all "nda" nda_without_term eq_refl)
    as (Hyes & _ & _ & _ & _ & Hupper).
  split; [apply Hyes; cbn; set_solver|].
  change "NDA" with (PyStr.upper "nda"). now rewrite Hupper, Hyes by (cbn; set_solver).
Defined.

Lemma entry_points_need_required_fields_witness :
  exists missing,
    missing ∈ required_fields "NDA" /\ nda_without_term !! missing = None /\
    generate_nda_contract prompt_service still_calendar unit Z accept_all no_error
      count_words word_count_of save_nowhere lone_generator nda_without_term
      one_limiter_world =
      (Raise ("'" ++ missing ++ "'"), one_limiter_world).
Proof.
  apply (proj2 (entry_points_need_required_fields prompt_service still_calendar unit Z
                  accept_all no_error count_words word_count_of save_nowhere
                  "NDA" nda_prompt _ lone_generator nda_without_term one_limiter_world
                  ltac:(unfold entry_points; left)) "term");
    [unfold required_fields; cbn; set_solver|reflexivity].
Defined.

Lemma generation_reports_its_outcome_witness :
  exists result w2,
    _generate_contract failing_service still_calendar unit Z accept_all no_error
      count_words word_count_of save_nowhere lone_generator "NDA" "Draft an NDA."
      nda_without_term one_limiter_world = (Ok result, w2) /\
    sent w2 = [(0, "Draft an NDA.")].
Proof.
  destruct (generation_reports_its_outcome failing_service still_calendar unit Z
              accept_all no_error count_words word_count_of save_nowhere
              lone_generator "NDA" "Draft an NDA." nda_without_term one_limiter_world _
              eq_refl eq_refl) as (result & w2 & Hrun & Hsent & _).
  exists result, w2. split; [exact Hrun|exact Hsent].
Defined.
